(** * hooks/logger.py: the hook event logger and its agent state tracker

    A shallow embedding of [src/hooks/logger.py].  Python values that come
    out of [json.load] are the inductive type [json]; a Python [dict] is an
    association list in insertion order with first-match lookup; the files
    the program touches are fields of a [world] record that every operation
    threads explicitly, and each file-system call leaves an [io_event] in
    the world's trace.  Exceptions are values of [exn]; a computation that
    may raise returns a [result]. *)

From Stdlib Require Import List String Ascii ZArith Lia Bool Arith PeanoNat.
From Stdlib Require Import DecimalString Permutation Sorted.
Import ListNotations.
Open Scope string_scope.

Set Warnings "-register-all".

(** ** Python values *)

(** What [json.load] can return.  JSON numbers are modelled by integers:
    the program only ever copies numbers or tests them for truth. *)
Inductive json : Type :=
| JNull
| JBool (b : bool)
| JNum (n : Z)
| JStr (s : string)
| JArr (l : list json)
| JObj (o : list (string * json)).

(** A Python [dict] with string keys, in insertion order. *)
Definition dict (V : Type) : Type := list (string * V).

Section Dict.
Context {V : Type}.

(** [d.get(k)] as an option; [None] is the missing key. *)
Fixpoint dict_get (d : dict V) (k : string) : option V :=
  match d with
  | [] => None
  | (k', v) :: d' => if String.eqb k' k then Some v else dict_get d' k
  end.

(** [d[k] = v]: an existing key keeps its position, a new key goes last. *)
Fixpoint dict_set (d : dict V) (k : string) (v : V) : dict V :=
  match d with
  | [] => [(k, v)]
  | (k', v') :: d' =>
      if String.eqb k' k then (k, v) :: d' else (k', v') :: dict_set d' k v
  end.

(** The dict left by [d.pop(k, default)]. *)
Fixpoint dict_remove (d : dict V) (k : string) : dict V :=
  match d with
  | [] => []
  | (k', v') :: d' =>
      if String.eqb k' k then d' else (k', v') :: dict_remove d' k
  end.

(** [dict(items)]: later pairs overwrite earlier ones with the same key. *)
Definition dict_of_items (items : list (string * V)) : dict V :=
  fold_left (fun d kv => dict_set d (fst kv) (snd kv)) items [].

Definition keys (d : dict V) : list string := map fst d.

(** [l[-n:]] *)
Definition lastn (n : nat) (l : list (string * V)) : list (string * V) :=
  skipn (List.length l - n) l.
End Dict.

(** Python truth value of a JSON value ([if v:], [v or d], [not v]). *)
Definition truthy (v : json) : bool :=
  match v with
  | JNull => false
  | JBool b => b
  | JNum n => negb (Z.eqb n 0)
  | JStr s => negb (String.eqb s "")
  | JArr l => match l with [] => false | _ => true end
  | JObj o => match o with [] => false | _ => true end
  end.

(** [v == "literal"] *)
Definition is_str (v : json) (s : string) : bool :=
  match v with
  | JStr s' => String.eqb s' s
  | _ => false
  end.

(** [v is not None] *)
Definition not_none (v : json) : bool :=
  match v with
  | JNull => false
  | _ => true
  end.

(** ** Exceptions *)

Inductive exn : Type :=
| JSONDecodeError
| AttributeError
| TypeError
| OSError
| UnicodeDecodeError
| RecursionError.

Inductive result (A : Type) : Type :=
| Ok (a : A)
| Raise (e : exn).
Arguments Ok {A} a.
Arguments Raise {A} e.

Definition bind {A B : Type} (r : result A) (f : A -> result B) : result B :=
  match r with
  | Ok a => f a
  | Raise e => Raise e
  end.

Notation "x <- r ;; k" := (bind r (fun x => k))
  (at level 61, r at next level, right associativity).

(** [v.get(k)] on a value that may not be a dict; a missing key is [None]. *)
Definition py_get (v : json) (k : string) : result json :=
  match v with
  | JObj o => Ok (match dict_get o k with Some x => x | None => JNull end)
  | _ => Raise AttributeError
  end.

(** [v.get(k, default)] *)
Definition py_get_default (v : json) (k : string) (default : json) : result json :=
  match v with
  | JObj o => Ok (match dict_get o k with Some x => x | None => default end)
  | _ => Raise AttributeError
  end.

Definition newline : string := String (ascii_of_nat 10) EmptyString.

(** ["\n".join(texts)]: every element has to be a [str]. *)
Fixpoint join_lines (texts : list json) : result string :=
  match texts with
  | [] => Ok ""
  | [JStr s] => Ok s
  | JStr s :: rest => t <- join_lines rest ;; Ok (s ++ newline ++ t)%string
  | _ => Raise TypeError
  end.

(** [d.get(k)] and [d.get(k, default)] on a value known to be a dict. *)
Definition field (d : dict json) (k : string) : json :=
  match dict_get d k with
  | Some v => v
  | None => JNull
  end.

Definition field_default (d : dict json) (k : string) (default : json)
  : json :=
  match dict_get d k with
  | Some v => v
  | None => default
  end.

(** The loop shared by both extractors:
    [for block in content: if isinstance(block, dict) and
     block.get("type") == "text": texts.append(block.get("text", ""))]. *)
Definition text_of_block (block : json) : list json :=
  match block with
  | JObj o =>
      if is_str (field o "type") "text"
      then [field_default o "text" (JStr "")]
      else []
  | _ => []
  end.

(** Iterating a list visits its elements; iterating a string or a dict
    visits strings, none of which is a dict; anything else is not iterable. *)
Definition collect_texts (content : json) : result (list json) :=
  match content with
  | JArr blocks => Ok (flat_map text_of_block blocks)
  | JStr _ | JObj _ => Ok []
  | _ => Raise TypeError
  end.

(** [s[:5000]] *)
Definition truncate (s : string) : string := substring 0 5000 s.

(** [extract_task_response] *)
Definition extract_task_response (tool_response : json) : result string :=
  if negb (truthy tool_response) then Ok ""
  else
    content <- py_get_default tool_response "content" (JArr []) ;;
    texts <- collect_texts content ;;
    match texts with
    | [] => Ok ""
    | _ => join_lines texts
    end.

(** ** The environment of one invocation *)

(** One line of a transcript, read and passed through [json.loads]. *)
Inductive transcript_line : Type :=
| LineJson (entry : json)         (* [json.loads] returned [entry] *)
| LineNotJson                     (* [json.loads] raised [JSONDecodeError] *)
| LineBroken (e : exn).           (* reading the line or [json.loads] raised
                                     something else: bytes that are not
                                     UTF-8, nesting beyond the recursion limit *)

(** What the program reads but never changes: the clock, the rendering of
    non-string values inside f-strings, which files can be written, and the
    transcript files. *)
Record env : Type := {
  (** [datetime.now(timezone.utc).isoformat()] *)
  now_iso : string;
  (** [datetime.now(timezone.utc).strftime("%Y-%m-%dT%H:%M:%SZ")] *)
  now_ts : string;
  (** [str(v)] for a [v] that is not a string *)
  py_format : json -> string;
  (** [open(state_file, 'w')] succeeds *)
  state_writable : bool;
  (** [open(log_dir / name, "a")] succeeds *)
  appendable : string -> bool;
  (** [unlink] and [symlink_to] on [latest.jsonl] succeed *)
  link_updatable : bool;
  (** the lines of a transcript file, as the loop of
      [get_last_assistant_message] meets them; [None] for a file that does
      not exist or cannot be opened *)
  transcript_lines : string -> option (list transcript_line);
  (** the text found behind a path given as a file descriptor number *)
  fd_text : json -> string
}.

(** [f"{v}"] *)
Definition fmt (E : env) (v : json) : string :=
  match v with
  | JStr s => s
  | _ => py_format E v
  end.

(** ** The agent state tracker *)

(** One value of [agent_state.json]: the dict written by [register_agent]
    and [set_pending_task].  It always has its four keys, so it is never
    an empty dict. *)
Record agent_info : Type := {
  subagent_type : json;
  model : json;
  description : json;
  registered_at : string
}.

Definition store : Type := dict agent_info.

(** [sorted(state.items(), key=lambda x: x[1].get("registered_at", ""))]:
    ascending and stable, so among equal keys the dict order is kept. *)
Fixpoint insert_by_time (x : string * agent_info) (l : list (string * agent_info))
  : list (string * agent_info) :=
  match l with
  | [] => [x]
  | y :: l' =>
      if String.leb (registered_at (snd x)) (registered_at (snd y))
      then x :: y :: l'
      else y :: insert_by_time x l'
  end.

Definition sorted_agents (state : store) : list (string * agent_info) :=
  fold_right insert_by_time [] state.

(** Lines 97-100: keep only the last 100 agents. *)
Definition trim (state : store) : store :=
  if Nat.ltb 100 (List.length state)
  then dict_of_items (lastn 100 (sorted_agents state))
  else state.

(** ** The files *)

Inductive dir_state : Type :=
| DirMissing                      (* can be created *)
| DirPresent
| DirBlocked.                     (* [mkdir] raises *)

(** [agent_state.json] as [_read_state] finds it.  The file is absent; or
    it is there and reading it fails with one of the two errors line 73
    catches; or it holds the object of records that [_write_state] dumps.
    A file on which [json.load] raises anything else (bytes that are not
    UTF-8, nesting beyond the recursion limit), or that holds JSON of
    another shape, is not a value of this type: what the tracker raises on
    it is not caught, and is not described here. *)
Inductive file_state : Type :=
| FileAbsent
| FileCorrupt                     (* [open] raises [IOError], or [json.load]
                                     raises [JSONDecodeError] *)
| FileJson (state : store).

(** The file-system calls that change something. *)
Inductive io_event : Type :=
| EvMkdir
| EvWriteState (state : store)
| EvAppend (name : string) (line : dict json)
| EvRelink (target : string).

Record world : Type := {
  log_dir : dir_state;
  state_file : file_state;
  (** the lines of every [hooks-<session>.jsonl] *)
  session_logs : dict (list (dict json));
  (** where [latest.jsonl] points *)
  latest : option string;
  (** newest event first *)
  trace : list io_event
}.

Definition set_log_dir (w : world) (d : dir_state) : world :=
  {| log_dir := d; state_file := state_file w; session_logs := session_logs w;
     latest := latest w; trace := trace w |}.

Definition set_state_file (w : world) (f : file_state) : world :=
  {| log_dir := log_dir w; state_file := f; session_logs := session_logs w;
     latest := latest w; trace := trace w |}.

Definition set_session_logs (w : world) (l : dict (list (dict json))) : world :=
  {| log_dir := log_dir w; state_file := state_file w; session_logs := l;
     latest := latest w; trace := trace w |}.

Definition set_latest (w : world) (t : option string) : world :=
  {| log_dir := log_dir w; state_file := state_file w; session_logs := session_logs w;
     latest := t; trace := trace w |}.

Definition emit (w : world) (e : io_event) : world :=
  {| log_dir := log_dir w; state_file := state_file w; session_logs := session_logs w;
     latest := latest w; trace := e :: trace w |}.

(** [Path.mkdir(parents=True, exist_ok=True)] *)
Definition mkdir (w : world) : result world :=
  match log_dir w with
  | DirPresent => Ok w
  | DirMissing => Ok (emit (set_log_dir w DirPresent) EvMkdir)
  | DirBlocked => Raise OSError
  end.

(** [AgentStateTracker._read_state]: a missing file (line 65), and a file
    on which [open] raises [IOError] or [json.load] raises
    [JSONDecodeError] (line 73), read as the empty dict. *)
Definition _read_state (w : world) : store :=
  match state_file w with
  | FileJson state => state
  | FileAbsent | FileCorrupt => []
  end.

(** [AgentStateTracker._write_state]: an [IOError] is swallowed. *)
Definition _write_state (E : env) (w : world) (state : store) : world :=
  if state_writable E
  then emit (set_state_file w (FileJson state)) (EvWriteState state)
  else w.

Definition new_info (E : env) (ty mo de : json) : agent_info :=
  {| subagent_type := ty; model := mo; description := de;
     registered_at := now_iso E |}.

(** The key [json.dump] writes for a dict key that is a number or [True]. *)
Definition json_key (v : json) : string :=
  match v with
  | JNum n => NilZero.string_of_int (Z.to_int n)
  | JBool true => "true"
  | JBool false => "false"
  | JStr s => s
  | _ => "null"
  end.

(** [AgentStateTracker.register_agent].  A string id overwrites its own
    entry.  A number used as id is a key of its own in memory, equal to no
    key that was read from the file, and becomes a string when the state is
    dumped; a list or a dict cannot be a key at all. *)
Definition register_agent (E : env) (w : world) (agent_id ty mo de : json)
  : result world :=
  if negb (truthy agent_id) then Ok w
  else
    let state := _read_state w in
    match agent_id with
    | JStr k =>
        Ok (_write_state E w (trim (dict_set state k (new_info E ty mo de))))
    | JArr _ | JObj _ => Raise TypeError
    | _ =>
        Ok (_write_state E w
              (dict_of_items
                 (trim (state ++ [(json_key agent_id, new_info E ty mo de)])%list)))
    end.

(** [f"pending_{session_id}"] *)
Definition pending_key (E : env) (session_id : json) : string :=
  "pending_" ++ fmt E session_id.

(** [AgentStateTracker.set_pending_task] *)
Definition set_pending_task (E : env) (w : world) (session_id ty mo de : json)
  : world :=
  let state := _read_state w in
  _write_state E w (dict_set state (pending_key E session_id) (new_info E ty mo de)).

(** [AgentStateTracker.get_and_clear_pending_task]; [None] is the empty
    dict the source returns when there is no entry. *)
Definition get_and_clear_pending_task (E : env) (w : world) (session_id : json)
  : world * option agent_info :=
  let state := _read_state w in
  let key := pending_key E session_id in
  match dict_get state key with
  | Some info => (_write_state E w (dict_remove state key), Some info)
  | None => (w, None)
  end.

(** [AgentStateTracker.lookup_agent] *)
Definition lookup_agent (w : world) (agent_id : json) : result (option agent_info) :=
  if negb (truthy agent_id) then Ok None
  else
    match agent_id with
    | JStr k => Ok (dict_get (_read_state w) k)
    | JArr _ | JObj _ => Raise TypeError
    | _ => Ok None
    end.

(** ** Transcripts *)

(** The body of the loop of [get_last_assistant_message] for one decoded
    line: the joined text blocks of an assistant entry, if it has any. *)
Definition assistant_text (entry : json) : result (option string) :=
  ty <- py_get entry "type" ;;
  if is_str ty "assistant" then
    message <- py_get_default entry "message" (JObj []) ;;
    content <- py_get_default message "content" (JArr []) ;;
    texts <- collect_texts content ;;
    match texts with
    | [] => Ok None
    | _ => s <- join_lines texts ;; Ok (Some s)
    end
  else Ok None.

(** A line on which [json.loads] raises [JSONDecodeError] is skipped
    (line 35); any other exception, from reading or decoding the line or
    from the body of the loop, ends the loop (line 37) and what was found
    so far is returned. *)
Fixpoint scan_transcript (lines : list transcript_line) (last_assistant : string)
  : string :=
  match lines with
  | [] => last_assistant
  | LineNotJson :: rest => scan_transcript rest last_assistant
  | LineBroken _ :: rest => last_assistant
  | LineJson entry :: rest =>
      match assistant_text entry with
      | Ok (Some s) => scan_transcript rest s
      | Ok None => scan_transcript rest last_assistant
      | Raise _ => last_assistant
      end
  end.

(** [get_last_assistant_message].  [os.path.exists] refuses a list or a
    dict, and takes a number for a file descriptor. *)
Definition get_last_assistant_message (E : env) (transcript_path : json)
  : result string :=
  if negb (truthy transcript_path) then Ok ""
  else
    match transcript_path with
    | JStr path =>
        match transcript_lines E path with
        | None => Ok ""
        | Some lines => Ok (scan_transcript lines "")
        end
    | JArr _ | JObj _ => Raise TypeError
    | _ => Ok (fd_text E transcript_path)
    end.

(** ** The program *)

(** Standard input as [json.load] sees it: nothing at all, text that is
    not JSON, JSON text, or input on which [json.load] raises something
    other than [JSONDecodeError] (bytes that are not UTF-8, nesting beyond
    the recursion limit, a closed stream). *)
Inductive stdin_content : Type :=
| StdinEmpty
| StdinGarbage
| StdinJson (v : json)
| StdinBroken (e : exn).

(** [json.load(sys.stdin)] *)
Definition json_load (stdin : stdin_content) : result json :=
  match stdin with
  | StdinJson v => Ok v
  | StdinEmpty | StdinGarbage => Raise JSONDecodeError
  | StdinBroken e => Raise e
  end.

(** How the process ends: [sys.exit(code)], or a traceback. *)
Inductive outcome : Type :=
| Exit (code : Z)
| Uncaught (e : exn).

Definition exit_code (o : outcome) : Z :=
  match o with
  | Exit code => code
  | Uncaught _ => 1
  end.

Definition log_entry : Type := dict json.

(** [len(content) if content else 0] *)
Definition content_length (content : json) : result json :=
  if negb (truthy content) then Ok (JNum 0)
  else
    match content with
    | JStr s => Ok (JNum (Z.of_nat (String.length s)))
    | JArr l => Ok (JNum (Z.of_nat (List.length l)))
    | JObj o => Ok (JNum (Z.of_nat (List.length o)))
    | _ => Raise TypeError
    end.

(** [log_entry[k] = tool_input.get(src)] for each pair, in order. *)
Fixpoint copy_fields (tool_input : json) (pairs : list (string * string))
  (entry : log_entry) : result log_entry :=
  match pairs with
  | [] => Ok entry
  | (k, src) :: rest =>
      v <- py_get tool_input src ;;
      copy_fields tool_input rest (dict_set entry k v)
  end.

(** Lines 168-236 without the tracker call: the parameters of the known
    tools, flattened into the entry. *)
Definition flatten_tool (tool_name tool_input : json) (entry : log_entry)
  : result log_entry :=
  if negb (truthy tool_input) then Ok entry
  else if is_str tool_name "Task" then
    copy_fields tool_input
      [("subagent_type", "subagent_type"); ("subagent_model", "model");
       ("subagent_description", "description");
       ("subagent_run_in_background", "run_in_background");
       ("subagent_resume", "resume")] entry
  else if is_str tool_name "Bash" then
    copy_fields tool_input
      [("bash_command", "command"); ("bash_description", "description");
       ("bash_timeout", "timeout"); ("bash_background", "run_in_background");
       ("bash_no_sandbox", "dangerouslyDisableSandbox")] entry
  else if is_str tool_name "Read" then
    copy_fields tool_input
      [("file_path", "file_path"); ("read_offset", "offset");
       ("read_limit", "limit")] entry
  else if is_str tool_name "Write" then
    entry1 <- copy_fields tool_input [("file_path", "file_path")] entry ;;
    content <- py_get_default tool_input "content" (JStr "") ;;
    n <- content_length content ;;
    Ok (dict_set entry1 "write_content_length" n)
  else if is_str tool_name "Edit" then
    copy_fields tool_input
      [("file_path", "file_path"); ("edit_replace_all", "replace_all")] entry
  else if is_str tool_name "Grep" then
    copy_fields tool_input
      [("grep_pattern", "pattern"); ("grep_path", "path");
       ("grep_glob", "glob"); ("grep_output_mode", "output_mode")] entry
  else if is_str tool_name "Glob" then
    copy_fields tool_input
      [("glob_pattern", "pattern"); ("glob_path", "path")] entry
  else if is_str tool_name "WebSearch" then
    copy_fields tool_input [("search_query", "query")] entry
  else if is_str tool_name "WebFetch" then
    copy_fields tool_input [("fetch_url", "url")] entry
  else if is_str tool_name "TaskOutput" then
    copy_fields tool_input
      [("task_output_id", "task_id"); ("task_output_block", "block");
       ("task_output_timeout", "timeout")] entry
  else Ok entry.

(** Effects on the files together with exceptions: the world is threaded
    through, also past the point where an exception is raised. *)
Definition M (A : Type) : Type := world -> world * result A.

Definition ret {A : Type} (a : A) : M A := fun w => (w, Ok a).

Definition bindM {A B : Type} (m : M A) (f : A -> M B) : M B :=
  fun w =>
    match m w with
    | (w', Ok a) => f a w'
    | (w', Raise e) => (w', Raise e)
    end.

Notation "x <~ m ;; k" := (bindM m (fun x => k))
  (at level 61, m at next level, right associativity).

Definition lift {A : Type} (r : result A) : M A := fun w => (w, r).

Definition try_world (f : world -> result world) : M unit :=
  fun w =>
    match f w with
    | Ok w' => (w', Ok tt)
    | Raise e => (w, Raise e)
    end.

Definition modify (f : world -> world) : M unit := fun w => (f w, Ok tt).

(** The three metadata keys of the entry, lines 280-282 and 287-289. *)
Definition with_metadata (entry : log_entry) (info : agent_info) : log_entry :=
  dict_set
    (dict_set
       (dict_set entry "subagent_type" (subagent_type info))
       "subagent_model" (model info))
    "subagent_description" (description info).

(** Lines 277-296: look the agent up, else fall back to the pending task of
    the session and register the agent under its id. *)
Definition resolve_subagent (E : env) (session_id agent_id : json)
  (entry : log_entry) : M log_entry :=
  agent_info <~ (fun w => (w, lookup_agent w agent_id)) ;;
  match agent_info with
  | Some info => ret (with_metadata entry info)
  | None =>
      pending <~ (fun w =>
                    let (w', p) := get_and_clear_pending_task E w session_id in
                    (w', Ok p)) ;;
      match pending with
      | Some p =>
          _ <~ try_world (fun w =>
                 register_agent E w agent_id
                   (subagent_type p) (model p) (description p)) ;;
          ret (with_metadata entry p)
      | None => ret entry
      end
  end.

(** [response[:5000] if response else None] *)
Definition response_value (response : string) : json :=
  if String.eqb response "" then JNull else JStr (truncate response).

(** Lines 316-319 *)
Definition append_log (E : env) (name : string) (line : log_entry) : M unit :=
  fun w =>
    if appendable E name then
      let old := match dict_get (session_logs w) name with
                 | Some lines => lines
                 | None => []
                 end in
      (emit (set_session_logs w (dict_set (session_logs w) name (old ++ [line])%list))
            (EvAppend name line), Ok tt)
    else (w, Raise OSError).

(** Lines 321-327: best effort. *)
Definition relink (E : env) (name : string) : M unit :=
  fun w =>
    if link_updatable E
    then (emit (set_latest w (Some name)) (EvRelink name), Ok tt)
    else (w, Ok tt).

(** Line 153: [input_data.get("tool_input") or {}] *)
Definition tool_input_of (input_data : dict json) : json :=
  let v := field input_data "tool_input" in
  if truthy v then v else JObj [].

(** [main], lines 146-311, for an input that decoded to a dict: the entry
    before its [None] values are removed. *)
Definition build_entry (E : env) (input_data : dict json) : M log_entry :=
  let session_id := field_default input_data "session_id" (JStr "unknown") in
  let event := field_default input_data "hook_event_name" (JStr "unknown") in
  let tool_name := field input_data "tool_name" in
  let ts := now_ts E in
  let tool_input := tool_input_of input_data in
  let entry0 : log_entry :=
    [("ts", JStr ts); ("session_id", session_id); ("event", event);
     ("tool_name", tool_name); ("tool_input", tool_input);
     ("prompt", field input_data "prompt"); ("cwd", field input_data "cwd");
     ("permission_mode", field input_data "permission_mode")] in
  (* lines 168-236 *)
  entry1 <~ lift (flatten_tool tool_name tool_input entry0) ;;
  _ <~ (if truthy tool_input && is_str tool_name "Task" && is_str event "PreToolUse"
        then
          ty <~ lift (py_get tool_input "subagent_type") ;;
          mo <~ lift (py_get tool_input "model") ;;
          de <~ lift (py_get tool_input "description") ;;
          modify (fun w => set_pending_task E w session_id ty mo de)
        else ret tt) ;;
  (* lines 239-258 *)
  entry2 <~ (if is_str event "PostToolUse" then
               let tool_response := field input_data "tool_response" in
               if is_str tool_name "Task" && truthy tool_response then
                 agent_id <~ lift (py_get tool_response "agentId") ;;
                 response <~ lift (extract_task_response tool_response) ;;
                 _ <~ (if truthy agent_id && truthy tool_input then
                         ty <~ lift (py_get tool_input "subagent_type") ;;
                         mo <~ lift (py_get tool_input "model") ;;
                         de <~ lift (py_get tool_input "description") ;;
                         try_world (fun w => register_agent E w agent_id ty mo de)
                       else ret tt) ;;
                 ret (dict_set (dict_set entry1 "agent_id" agent_id)
                        "subagent_response" (JStr (truncate response)))
               else ret (dict_set entry1 "tool_response" tool_response)
             else ret entry1) ;;
  (* lines 261-265 *)
  entry3 <~ (if is_str event "Stop" then
               response <~ lift (get_last_assistant_message E
                                   (field_default input_data "transcript_path" (JStr ""))) ;;
               ret (dict_set
                      (dict_set entry2 "assistant_response" (response_value response))
                      "stop_hook_active" (field input_data "stop_hook_active"))
             else ret entry2) ;;
  (* lines 268-296 *)
  entry4 <~ (if is_str event "SubagentStop" then
               let transcript_path :=
                 let a := field input_data "agent_transcript_path" in
                 if truthy a then a
                 else field_default input_data "transcript_path" (JStr "") in
               response <~ lift (get_last_assistant_message E transcript_path) ;;
               let agent_id := field input_data "agent_id" in
               resolve_subagent E session_id agent_id
                 (dict_set
                    (dict_set
                       (dict_set entry3 "assistant_response" (response_value response))
                       "agent_id" agent_id)
                    "stop_hook_active" (field input_data "stop_hook_active"))
             else ret entry3) ;;
  (* lines 299-311 *)
  let entry5 := if is_str event "SessionStart"
                then dict_set entry4 "source" (field input_data "source")
                else entry4 in
  let entry6 := if is_str event "SessionEnd"
                then dict_set entry5 "reason" (field input_data "reason")
                else entry5 in
  let entry7 := if is_str event "Notification"
                then dict_set
                       (dict_set entry6 "message" (field input_data "message"))
                       "notification_type" (field input_data "notification_type")
                else entry6 in
  let entry8 := if is_str event "PreCompact"
                then dict_set entry7 "trigger" (field input_data "trigger")
                else entry7 in
  ret entry8.

(** Line 314: [{k: v for k, v in log_entry.items() if v is not None}] *)
Definition remove_none (entry : log_entry) : log_entry :=
  filter (fun kv => not_none (snd kv)) entry.

(** [f"hooks-{session_id}.jsonl"] *)
Definition session_file (E : env) (input_data : dict json) : string :=
  "hooks-" ++ fmt E (field_default input_data "session_id" (JStr "unknown")) ++ ".jsonl".

(** [main] from line 146 on. *)
Definition record_event (E : env) (input_data : dict json) : M unit :=
  entry <~ build_entry E input_data ;;
  let line := remove_none entry in
  let name := session_file E input_data in
  _ <~ append_log E name line ;;
  _ <~ relink E name ;;
  ret tt.

(** [main] up to the point where the process ends. *)
Definition run (E : env) (stdin : stdin_content) : M Z :=
  _ <~ try_world mkdir ;;                 (* line 135 *)
  _ <~ try_world mkdir ;;                 (* line 61, the tracker's constructor *)
  match json_load stdin with
  | Raise JSONDecodeError => ret 0%Z                  (* line 144: sys.exit(0) *)
  | Raise e => lift (Raise e)                         (* not caught by line 143 *)
  | Ok (JObj input_data) =>
      _ <~ record_event E input_data ;;
      ret 0%Z                                           (* line 329: sys.exit(0) *)
  | Ok _ => lift (Raise AttributeError)               (* line 147 *)
  end.

(** The process: the world it leaves and how it ends. *)
Definition main (E : env) (w : world) (stdin : stdin_content) : world * outcome :=
  match run E stdin w with
  | (w', Ok code) => (w', Exit code)
  | (w', Raise e) => (w', Uncaught e)
  end.

(** ** Sample inputs *)

(** A healthy disk and a clock reading. *)
Definition sample_env : env :=
  {| now_iso := "2026-01-01T00:00:00.000001+00:00";
     now_ts := "2026-01-01T00:00:00Z";
     py_format := fun _ => "None";
     state_writable := true;
     appendable := fun _ => true;
     link_updatable := true;
     transcript_lines := fun _ => None;
     fd_text := fun _ => "" |}.

(** The same disk one second later. *)
Definition later_env : env :=
  {| now_iso := "2026-01-01T00:00:01.000001+00:00";
     now_ts := "2026-01-01T00:00:01Z";
     py_format := py_format sample_env;
     state_writable := true;
     appendable := appendable sample_env;
     link_updatable := true;
     transcript_lines := transcript_lines sample_env;
     fd_text := fd_text sample_env |}.

(** A disk on which no session log can be opened for appending. *)
Definition full_disk_env : env :=
  {| now_iso := now_iso sample_env;
     now_ts := now_ts sample_env;
     py_format := py_format sample_env;
     state_writable := true;
     appendable := fun _ => false;
     link_updatable := true;
     transcript_lines := transcript_lines sample_env;
     fd_text := fd_text sample_env |}.

(** Nothing on disk yet, not even the log directory. *)
Definition fresh_world : world :=
  {| log_dir := DirMissing; state_file := FileAbsent; session_logs := [];
     latest := None; trace := [] |}.

(** The log directory exists and the state file is empty. *)
Definition empty_world : world :=
  {| log_dir := DirPresent; state_file := FileJson []; session_logs := [];
     latest := None; trace := [] |}.

Definition explore_info : agent_info :=
  {| subagent_type := JStr "Explore"; model := JStr "haiku";
     description := JStr "find the parser";
     registered_at := "2026-01-01T00:00:00.000000+00:00" |}.

(** A pending task for session [s1] and nothing else. *)
Definition pending_world : world :=
  {| log_dir := DirPresent;
     state_file := FileJson [("pending_s1", explore_info)];
     session_logs := []; latest := None; trace := [] |}.

(** A [SessionStart] event. *)
Definition session_start_event : dict json :=
  [("session_id", JStr "s1"); ("hook_event_name", JStr "SessionStart");
   ("source", JStr "startup")].

(** A [SubagentStop] event of session [s1] for the agent with the given id. *)
Definition subagent_stop_event (agent_id : string) : dict json :=
  [("session_id", JStr "s1"); ("hook_event_name", JStr "SubagentStop");
   ("agent_id", JStr agent_id); ("stop_hook_active", JBool false)].

(** ** Operations of the tracker in sequence *)

Inductive store_op : Type :=
| OpRegister (agent_id : string) (ty mo de : json)
| OpSetPending (session_id : string) (ty mo de : json)
| OpTakePending (session_id : string)
| OpLookup (agent_id : string).

Definition apply_op (E : env) (w : world) (op : store_op) : world :=
  match op with
  | OpRegister k ty mo de =>
      match register_agent E w (JStr k) ty mo de with
      | Ok w' => w'
      | Raise _ => w
      end
  | OpSetPending s ty mo de => set_pending_task E w (JStr s) ty mo de
  | OpTakePending s => fst (get_and_clear_pending_task E w (JStr s))
  | OpLookup _ => w
  end.

Definition apply_ops (E : env) (w : world) (ops : list store_op) : world :=
  fold_left (apply_op E) ops w.

(** The number of records the store holds. *)
Definition record_count (w : world) : nat := List.length (_read_state w).

Definition agent_name (i : nat) : string :=
  "agent-" ++ NilZero.string_of_uint (Nat.to_uint i).

(** [n] registrations of distinct agents. *)
Definition register_many (n : nat) : list store_op :=
  map (fun i => OpRegister (agent_name i) (JStr "Explore") JNull JNull) (seq 0 n).

(** ** Several invocations at once *)

(** Every hook event is a process of its own, and all of them share
    [agent_state.json].  [get_and_clear_pending_task] is here cut into the
    steps between which another process can run: the calls of
    [_read_state] (lines 65-72), the [pop] (line 118) and the calls of
    [_write_state] (lines 79-82). *)

(** The advisory lock on the state file. *)
Inductive flock_state : Type :=
| Unlocked
| SharedBy (holders : nat)
| ExclusiveBy (pid : nat).

Record shared_file : Type := {
  contents : file_state;
  flock : flock_state
}.

(** Where a process is inside [get_and_clear_pending_task]. *)
Inductive take_pc : Type :=
| TakeStart
| TakeReadLocked                                    (* after [flock(LOCK_SH)] *)
| TakeLoaded (state : store)                        (* after [json.load] *)
| TakeHaveState (state : store)                     (* after [flock(LOCK_UN)] *)
| TakePopped (state : store) (info : agent_info)    (* after [state.pop] *)
| TakeTruncated (state : store) (info : agent_info) (* after [open(.., 'w')] *)
| TakeWriteLocked (state : store) (info : agent_info) (* after [flock(LOCK_EX)] *)
| TakeDumped (info : agent_info)                    (* after [json.dump] *)
| TakeDone (info : option agent_info).              (* returned *)

Definition release_shared (l : flock_state) : flock_state :=
  match l with
  | SharedBy (S (S n)) => SharedBy (S n)
  | _ => Unlocked
  end.

(** One step of process [pid]; [None] when it waits for the lock or has
    returned.  Opening the file for writing empties it at once, whoever
    holds the lock; an empty file is not JSON. *)
Definition take_step (key : string) (pid : nat) (d : shared_file) (pc : take_pc)
  : option (shared_file * take_pc) :=
  match pc with
  | TakeStart =>
      match contents d with
      | FileAbsent => Some (d, TakeHaveState [])
      | _ =>
          match flock d with
          | ExclusiveBy _ => None
          | Unlocked =>
              Some ({| contents := contents d; flock := SharedBy 1 |}, TakeReadLocked)
          | SharedBy n =>
              Some ({| contents := contents d; flock := SharedBy (S n) |}, TakeReadLocked)
          end
      end
  | TakeReadLocked =>
      Some (d, TakeLoaded match contents d with
                          | FileJson state => state
                          | _ => []
                          end)
  | TakeLoaded state =>
      Some ({| contents := contents d; flock := release_shared (flock d) |},
            TakeHaveState state)
  | TakeHaveState state =>
      match dict_get state key with
      | Some info => Some (d, TakePopped (dict_remove state key) info)
      | None => Some (d, TakeDone None)
      end
  | TakePopped state info =>
      Some ({| contents := FileCorrupt; flock := flock d |}, TakeTruncated state info)
  | TakeTruncated state info =>
      match flock d with
      | Unlocked =>
          Some ({| contents := contents d; flock := ExclusiveBy pid |},
                TakeWriteLocked state info)
      | _ => None
      end
  | TakeWriteLocked state info =>
      Some ({| contents := FileJson state; flock := flock d |}, TakeDumped info)
  | TakeDumped info =>
      Some ({| contents := contents d; flock := Unlocked |}, TakeDone (Some info))
  | TakeDone _ => None
  end.

(** The shared file and the processes that are taking the pending task. *)
Record system : Type := {
  disk : shared_file;
  procs : list take_pc
}.

Fixpoint set_nth {A : Type} (n : nat) (x : A) (l : list A) : list A :=
  match l, n with
  | [], _ => []
  | _ :: l', O => x :: l'
  | y :: l', S n' => y :: set_nth n' x l'
  end.

Definition system_step (key : string) (pid : nat) (s : system) : option system :=
  match nth_error (procs s) pid with
  | None => None
  | Some pc =>
      match take_step key pid (disk s) pc with
      | None => None
      | Some (d, pc') => Some {| disk := d; procs := set_nth pid pc' (procs s) |}
      end
  end.

(** Run the processes in the order the scheduler picks them. *)
Fixpoint run_schedule (key : string) (schedule : list nat) (s : system)
  : option system :=
  match schedule with
  | [] => Some s
  | pid :: rest =>
      match system_step key pid s with
      | None => None
      | Some s' => run_schedule key rest s'
      end
  end.

(** What each process returned, once it has. *)
Definition returned (s : system) : list (option (option agent_info)) :=
  map (fun pc => match pc with TakeDone r => Some r | _ => None end) (procs s).

(** Two processes about to take the pending task of session [s1]. *)
Definition two_takers : system :=
  {| disk := {| contents := FileJson [("pending_s1", explore_info)];
                flock := Unlocked |};
     procs := [TakeStart; TakeStart] |}.

(** Both read before either writes. *)
Definition racing_schedule : list nat :=
  [0; 0; 0; 1; 1; 1; 0; 0; 0; 0; 0; 1; 1; 1; 1; 1]%nat.

(** One after the other. *)
Definition serial_schedule (first second : nat) : list nat :=
  (repeat first 8 ++ repeat second 4)%list.

(** ** The vocabulary of the properties *)

(** The sort key of an item of the state. *)
Definition time_of (x : string * agent_info) : string := registered_at (snd x).

(** [x] was registered no later than [y]. *)
Definition not_after (x y : string * agent_info) : Prop :=
  String.leb (time_of x) (time_of y) = true.

(** [y] was registered strictly before time [t]. *)
Definition older_than (t : string) (y : string * agent_info) : Prop :=
  String.ltb (time_of y) t = true.

(** [m] leaves the session logs alone, whether it raises or not. *)
Definition keeps_logs {A : Type} (m : M A) : Prop :=
  forall w, session_logs (fst (m w)) = session_logs w.

(** Whatever [m] returns satisfies [Q]. *)
Definition yields {A : Type} (m : M A) (Q : A -> Prop) : Prop :=
  forall w w' a, m w = (w', Ok a) -> Q a.

(** [m] raises no exception. *)
Definition succeeds {A : Type} (m : M A) : Prop :=
  forall w, exists w' a, m w = (w', Ok a).

(** The lines of a session log. *)
Definition lines_of (w : world) (name : string) : list log_entry :=
  match dict_get (session_logs w) name with
  | Some lines => lines
  | None => []
  end.

(** No value of the entry is [None]. *)
Definition no_null (line : log_entry) : Prop :=
  Forall (fun kv => snd kv <> JNull) line.

(** The types of section 6 of the specification. *)
Definition is_string (v : json) : bool :=
  match v with
  | JStr _ => true
  | _ => false
  end.

Definition str_or_null (v : json) : bool :=
  match v with
  | JNull | JStr _ => true
  | _ => false
  end.

(** The key is missing, or its value passes [p]. *)
Definition absent_or (p : json -> bool) (d : dict json) (k : string) : bool :=
  match dict_get d k with
  | None => true
  | Some v => p v
  end.

(** A block of type [text] carries a string, if it carries a text at all. *)
Definition well_formed_block (block : json) : bool :=
  match block with
  | JObj o =>
      if is_str (field o "type") "text" then absent_or is_string o "text" else true
  | _ => true
  end.

Definition well_formed_content (content : json) : bool :=
  match content with
  | JArr blocks => forallb well_formed_block blocks
  | _ => false
  end.

(** [tool_response]: an object whose [agentId] is a string and whose
    [content] is a list of blocks. *)
Definition well_formed_tool_response (v : json) : bool :=
  match v with
  | JNull => true
  | JObj o => absent_or str_or_null o "agentId" && absent_or well_formed_content o "content"
  | _ => false
  end.

(** [tool_input]: an object; the [content] of a [Write] is a string. *)
Definition well_formed_tool_input (v : json) : bool :=
  match v with
  | JNull => true
  | JObj o => absent_or str_or_null o "content"
  | _ => false
  end.

(** The fields of an event have the types the host runtime gives them:
    [session_id] and [hook_event_name] are strings, [tool_name], [agent_id]
    and the transcript paths are strings or null, [tool_input] and
    [tool_response] are objects or null. *)
Definition well_formed (input_data : dict json) : bool :=
  absent_or is_string input_data "session_id" &&
  absent_or is_string input_data "hook_event_name" &&
  absent_or str_or_null input_data "tool_name" &&
  absent_or well_formed_tool_input input_data "tool_input" &&
  absent_or well_formed_tool_response input_data "tool_response" &&
  absent_or str_or_null input_data "transcript_path" &&
  absent_or str_or_null input_data "agent_transcript_path" &&
  absent_or str_or_null input_data "agent_id".

(** The keys [main] sets first and never overwrites. *)
Definition core_key (k : string) : bool :=
  String.eqb k "ts" || String.eqb k "session_id" || String.eqb k "event".

(** The entry has its time stamp, session id and event name. *)
Definition has_core (ts sid ev : json) (entry : log_entry) : Prop :=
  dict_get entry "ts" = Some ts /\
  dict_get entry "session_id" = Some sid /\
  dict_get entry "event" = Some ev.

(** [m] leaves a part of the world alone, whether it raises or not. *)
Definition preserves {X A : Type} (part : world -> X) (m : M A) : Prop :=
  forall w, part (fst (m w)) = part w.

(** No string occurs twice. *)
Fixpoint distinct (l : list string) : bool :=
  match l with
  | [] => true
  | x :: rest => negb (existsb (String.eqb x) rest) && distinct rest
  end.

(** How many of the operations are [set_pending_task]. *)
Definition count_set_pending (ops : list store_op) : nat :=
  List.length (filter (fun op => match op with
                                 | OpSetPending _ _ _ _ => true
                                 | _ => false
                                 end) ops).

(** A world whose state file holds a hundred agents registered at the
    time of [later_env]. *)
Definition full_world : world :=
  apply_ops later_env empty_world (register_many 100).

(** A disk on which the state file cannot be written. *)
Definition read_only_env : env :=
  {| now_iso := now_iso sample_env;
     now_ts := now_ts sample_env;
     py_format := py_format sample_env;
     state_writable := false;
     appendable := appendable sample_env;
     link_updatable := true;
     transcript_lines := transcript_lines sample_env;
     fd_text := fd_text sample_env |}.

(** The strings of the text blocks of a content list, in order: a block
    counts when it is a dict whose [type] is [text]; every other block is
    passed over. *)
Inductive carries : list json -> list string -> Prop :=
| carries_nil : carries [] []
| carries_text o s blocks ss :
    dict_get o "type" = Some (JStr "text") ->
    dict_get o "text" = Some (JStr s) ->
    carries blocks ss ->
    carries (JObj o :: blocks) (s :: ss)
| carries_other block blocks ss :
    (forall o, block = JObj o -> is_str (field o "type") "text" = false) ->
    carries blocks ss ->
    carries (block :: blocks) ss.

(** A transcript line that [json.loads] rejects with [JSONDecodeError]. *)
Definition not_json (line : transcript_line) : bool :=
  match line with
  | LineNotJson => true
  | _ => false
  end.

(** A transcript line the loop of [get_last_assistant_message] gets past:
    not JSON, or an object that, when its [type] is [assistant], has an
    object as [message] whose [content] is a list of blocks. *)
Definition well_formed_line (line : transcript_line) : bool :=
  match line with
  | LineNotJson => true
  | LineBroken _ => false
  | LineJson (JObj o) =>
      if is_str (field o "type") "assistant" then
        match dict_get o "message" with
        | None => true
        | Some (JObj m) => absent_or well_formed_content m "content"
        | Some _ => false
        end
      else true
  | LineJson _ => false
  end.

(** Two transcripts: in the first, two assistant entries around a line
    that is not JSON; in the second, a line holding a JSON list between
    two assistant entries. *)
Definition transcript_env : env :=
  {| now_iso := now_iso sample_env;
     now_ts := now_ts sample_env;
     py_format := py_format sample_env;
     state_writable := true;
     appendable := appendable sample_env;
     link_updatable := true;
     transcript_lines := fun path =>
       if String.eqb path "/tmp/t.jsonl" then
         Some [LineJson (JObj [("type", JStr "assistant");
                           ("message", JObj [("content",
                              JArr [JObj [("type", JStr "text"); ("text", JStr "first")]])])]);
               LineNotJson;
               LineJson (JObj [("type", JStr "user")]);
               LineJson (JObj [("type", JStr "assistant");
                           ("message", JObj [("content",
                              JArr [JObj [("type", JStr "text"); ("text", JStr "done")];
                                    JObj [("type", JStr "tool_use")];
                                    JObj [("type", JStr "text"); ("text", JStr "bye")]])])])]
       else if String.eqb path "/tmp/u.jsonl" then
         Some [LineJson (JObj [("type", JStr "assistant");
                           ("message", JObj [("content",
                              JArr [JObj [("type", JStr "text"); ("text", JStr "first")]])])]);
               LineJson (JArr [JNum 1]);
               LineJson (JObj [("type", JStr "assistant");
                           ("message", JObj [("content",
                              JArr [JObj [("type", JStr "text"); ("text", JStr "late")]])])])]
       else None;
     fd_text := fd_text sample_env |}.

(** The start of a [Task] in session [s1]. *)
Definition task_start_event : dict json :=
  [("session_id", JStr "s1"); ("hook_event_name", JStr "PreToolUse");
   ("tool_name", JStr "Task");
   ("tool_input", JObj [("subagent_type", JStr "Plan"); ("description", JStr "plan it")])].

(** The result of that [Task], carrying the id of the agent. *)
Definition task_result_event : dict json :=
  [("session_id", JStr "s1"); ("hook_event_name", JStr "PostToolUse");
   ("tool_name", JStr "Task");
   ("tool_input", JObj [("subagent_type", JStr "Plan"); ("description", JStr "plan it")]);
   ("tool_response",
    JObj [("agentId", JStr "a1b2c3");
          ("content", JArr [JObj [("type", JStr "text"); ("text", JStr "done")]])])].

(** The agent [a1b2c3] is registered and session [s1] has a pending task. *)
Definition registered_world : world :=
  {| log_dir := DirPresent;
     state_file := FileJson [("pending_s1", explore_info); ("a1b2c3", explore_info)];
     session_logs := []; latest := None; trace := [] |}.

(** The two keys that hold free text taken from a response. *)
Definition response_key (k : string) : bool :=
  String.eqb k "subagent_response" || String.eqb k "assistant_response".

(** [None], or a string of at most 5000 characters. *)
Definition bounded_value (v : json) : Prop :=
  match v with
  | JNull => True
  | JStr s => String.length s <= 5000
  | _ => False
  end.

(** Every response the entry holds is bounded. *)
Definition responses_bounded (entry : log_entry) : Prop :=
  Forall (fun kv => response_key (fst kv) = true -> bounded_value (snd kv)) entry.

(** A [Stop] event with a transcript. *)
Definition stop_event : dict json :=
  [("session_id", JStr "s1"); ("hook_event_name", JStr "Stop");
   ("transcript_path", JStr "/tmp/t.jsonl"); ("stop_hook_active", JBool false)].

(** The state file is there, but its text is not JSON. *)
Definition corrupt_world : world :=
  {| log_dir := DirPresent; state_file := FileCorrupt; session_logs := [];
     latest := None; trace := [] |}.

(** An event that gives [null] as its session id. *)
Definition null_session_event : dict json :=
  [("session_id", JNull); ("hook_event_name", JStr "SessionStart")].

(** * Properties *)

(** ** Dicts *)

Section DictFacts.
Context {V : Type}.
Implicit Types (d : dict V) (k : string) (v : V).

Lemma dict_get_set_same d k v : dict_get (dict_set d k v) k = Some v.
Proof.
  induction d as [|[k' v'] d IH]; simpl.
  - now rewrite String.eqb_refl.
  - destruct (String.eqb k' k) eqn:Hk; simpl.
    + now rewrite String.eqb_refl.
    + now rewrite Hk.
Qed.

Lemma dict_get_set_other d k k' v :
  k <> k' -> dict_get (dict_set d k v) k' = dict_get d k'.
Proof.
  intros Hne. induction d as [|[k0 v0] d IH]; simpl.
  - apply String.eqb_neq in Hne. now rewrite Hne.
  - destruct (String.eqb k0 k) eqn:Hk; simpl.
    + apply String.eqb_eq in Hk. subst k0.
      apply String.eqb_neq in Hne. now rewrite Hne.
    + now rewrite IH.
Qed.

Lemma dict_get_none_iff d k : dict_get d k = None <-> ~ In k (keys d).
Proof.
  induction d as [|[k' v'] d IH]; simpl.
  - tauto.
  - destruct (String.eqb k' k) eqn:Hk.
    + apply String.eqb_eq in Hk. split; [discriminate | intros H; exfalso; auto].
    + apply String.eqb_neq in Hk. rewrite IH. tauto.
Qed.

Lemma dict_get_some_in d k v : dict_get d k = Some v -> In (k, v) d.
Proof.
  induction d as [|[k' v'] d IH]; simpl; [discriminate|].
  destruct (String.eqb k' k) eqn:Hk.
  - apply String.eqb_eq in Hk. intros [= ->]. subst. now left.
  - intros H. right. now apply IH.
Qed.

Lemma in_dict_get d k v : NoDup (keys d) -> In (k, v) d -> dict_get d k = Some v.
Proof.
  induction d as [|[k' v'] d IH]; simpl; [tauto|].
  intros Hnd [Heq | Hin].
  - injection Heq as -> ->. now rewrite String.eqb_refl.
  - inversion Hnd as [|? ? Hnotin Hnd']; subst.
    destruct (String.eqb k' k) eqn:Hk.
    + apply String.eqb_eq in Hk. subst k'. exfalso. apply Hnotin.
      change k with (fst (k, v)). now apply in_map.
    + now apply IH.
Qed.

(** A new key goes last. *)
Lemma dict_set_fresh d k v : dict_get d k = None -> dict_set d k v = (d ++ [(k, v)])%list.
Proof.
  induction d as [|[k' v'] d IH]; simpl; [reflexivity|].
  destruct (String.eqb k' k); [discriminate|].
  intros H. now rewrite IH.
Qed.

Lemma keys_dict_set_present d k v v0 :
  dict_get d k = Some v0 -> keys (dict_set d k v) = keys d.
Proof.
  induction d as [|[k' v'] d IH]; simpl; [discriminate|].
  destruct (String.eqb k' k) eqn:Hk; simpl.
  - apply String.eqb_eq in Hk. now subst.
  - intros H. now rewrite IH.
Qed.

Lemma length_dict_set d k v :
  List.length (dict_set d k v) =
  match dict_get d k with
  | Some _ => List.length d
  | None => S (List.length d)
  end.
Proof.
  induction d as [|[k' v'] d IH]; simpl; [reflexivity|].
  destruct (String.eqb k' k); simpl; [reflexivity|].
  rewrite IH. now destruct (dict_get d k).
Qed.

Lemma NoDup_keys_dict_set d k v : NoDup (keys d) -> NoDup (keys (dict_set d k v)).
Proof.
  intros Hnd. destruct (dict_get d k) as [v0|] eqn:Hget.
  - now rewrite (keys_dict_set_present _ _ _ _ Hget).
  - rewrite (dict_set_fresh _ _ _ Hget). unfold keys. rewrite map_app. simpl.
    apply NoDup_app; [assumption | repeat constructor; simpl; tauto|].
    intros x Hx [<- | []]. now apply dict_get_none_iff in Hget.
Qed.

Lemma dict_remove_in d k x : In x (dict_remove d k) -> In x d.
Proof.
  induction d as [|[k' v'] d IH]; simpl; [tauto|].
  destruct (String.eqb k' k); simpl; intuition.
Qed.

Lemma NoDup_keys_dict_remove d k : NoDup (keys d) -> NoDup (keys (dict_remove d k)).
Proof.
  induction d as [|[k' v'] d IH]; simpl; [trivial|].
  intros Hnd. inversion Hnd as [|? ? Hnotin Hnd']; subst.
  destruct (String.eqb k' k); simpl; [assumption|].
  constructor; [|now apply IH].
  intros Hin. apply Hnotin. apply in_map_iff in Hin as [[k0 v0] [<- Hin]].
  apply dict_remove_in in Hin. change (fst (k0, v0)) with (fst (k0, v0)).
  now apply (in_map fst) in Hin.
Qed.

Lemma dict_get_remove_same d k : NoDup (keys d) -> dict_get (dict_remove d k) k = None.
Proof.
  induction d as [|[k' v'] d IH]; simpl; [trivial|].
  intros Hnd. inversion Hnd as [|? ? Hnotin Hnd']; subst.
  destruct (String.eqb k' k) eqn:Hk; simpl.
  - apply String.eqb_eq in Hk. subst k'. now apply dict_get_none_iff.
  - rewrite Hk. now apply IH.
Qed.

Lemma length_dict_remove d k v0 :
  dict_get d k = Some v0 -> S (List.length (dict_remove d k)) = List.length d.
Proof.
  induction d as [|[k' v'] d IH]; simpl; [discriminate|].
  destruct (String.eqb k' k); simpl; [reflexivity|].
  intros H. now rewrite IH.
Qed.

(** [dict(items)] is [items] itself when no key repeats. *)
Lemma fold_dict_set_nodup (items acc : list (string * V)) :
  NoDup (keys (acc ++ items)%list) ->
  fold_left (fun d kv => dict_set d (fst kv) (snd kv)) items acc = (acc ++ items)%list.
Proof.
  revert acc. induction items as [|[k v] items IH]; intros acc Hnd; simpl.
  - now rewrite app_nil_r.
  - assert (Hfresh : dict_get acc k = None).
    { apply dict_get_none_iff. intros Hin. unfold keys in Hnd.
      rewrite map_app in Hnd. simpl in Hnd.
      apply NoDup_remove_2 in Hnd. apply Hnd. apply in_or_app. now left. }
    rewrite (dict_set_fresh _ _ _ Hfresh).
    rewrite IH; rewrite <- app_assoc; simpl; [reflexivity | assumption].
Qed.

Lemma dict_of_items_nodup (items : list (string * V)) :
  NoDup (keys items) -> dict_of_items items = items.
Proof. intros H. unfold dict_of_items. now rewrite fold_dict_set_nodup. Qed.

Lemma lastn_length n (l : list (string * V)) :
  List.length (lastn n l) = Nat.min n (List.length l).
Proof. unfold lastn. rewrite length_skipn. lia. Qed.

Lemma lastn_incl n (l : list (string * V)) x : In x (lastn n l) -> In x l.
Proof.
  unfold lastn. intros H. rewrite <- (firstn_skipn (List.length l - n) l).
  apply in_or_app. now right.
Qed.

Lemma lastn_snoc n (l : list (string * V)) x :
  In x (lastn (S n) (l ++ [x])%list).
Proof.
  unfold lastn. rewrite length_app. simpl.
  replace (List.length l + 1 - S n) with (List.length l - n) by lia.
  rewrite skipn_app.
  apply in_or_app. right.
  replace (List.length l - n - List.length l) with 0 by lia. now left.
Qed.

Lemma NoDup_keys_lastn n (l : list (string * V)) :
  NoDup (keys l) -> NoDup (keys (lastn n l)).
Proof.
  unfold lastn, keys. intros H.
  rewrite <- (firstn_skipn (List.length l - n) l), map_app in H.
  now apply NoDup_app_remove_l in H.
Qed.
End DictFacts.

(** ** Sorting by registration time and trimming *)

Lemma ltb_leb_false a b : String.ltb a b = true -> String.leb b a = false.
Proof.
  unfold String.ltb, String.leb. rewrite (String.compare_antisym a b).
  now destruct (String.compare b a).
Qed.

Lemma ltb_leb a b : String.ltb a b = true -> String.leb a b = true.
Proof. unfold String.ltb, String.leb. now destruct (String.compare a b). Qed.

Lemma insert_by_time_perm x l : Permutation (insert_by_time x l) (x :: l).
Proof.
  induction l as [|y l IH]; simpl; [reflexivity|].
  destruct (String.leb _ _); [reflexivity|].
  rewrite IH. apply perm_swap.
Qed.

Lemma sorted_agents_perm state : Permutation (sorted_agents state) state.
Proof.
  induction state as [|x l IH]; simpl; [reflexivity|].
  rewrite insert_by_time_perm. now constructor.
Qed.

(** An element younger than all of [l] is inserted at the end. *)
Lemma insert_by_time_last x l :
  Forall (older_than (time_of x)) l -> insert_by_time x l = (l ++ [x])%list.
Proof.
  induction 1 as [|y l Hy Hl IH]; simpl; [reflexivity|].
  unfold older_than in Hy. apply ltb_leb_false in Hy.
  unfold time_of in Hy. now rewrite Hy, IH.
Qed.

(** Inserting an older element leaves the youngest one at the end. *)
Lemma insert_by_time_snoc y l x :
  older_than (time_of x) y ->
  insert_by_time y (l ++ [x])%list = (insert_by_time y l ++ [x])%list.
Proof.
  intros Hy. apply ltb_leb in Hy. unfold time_of in Hy.
  induction l as [|z l IH]; simpl.
  - now rewrite Hy.
  - destruct (String.leb (registered_at (snd y)) (registered_at (snd z)));
      [reflexivity|]. now rewrite IH.
Qed.

(** The strictly youngest entry is the last one after sorting. *)
Lemma sorted_agents_youngest_last l1 x l2 :
  Forall (older_than (time_of x)) (l1 ++ l2)%list ->
  sorted_agents (l1 ++ x :: l2)%list = (sorted_agents (l1 ++ l2) ++ [x])%list.
Proof.
  induction l1 as [|y l1 IH]; simpl; intros Hold.
  - apply insert_by_time_last.
    rewrite Forall_forall in *. intros z Hz. apply Hold.
    now apply (Permutation_in _ (sorted_agents_perm l2)).
  - inversion Hold as [|? ? Hy Hrest]; subst.
    rewrite (IH Hrest). now apply insert_by_time_snoc.
Qed.

(** Where [dict_set] puts the entry, and what surrounds it. *)
Lemma dict_set_split (d : store) k v :
  exists l1 l2,
    dict_set d k v = (l1 ++ (k, v) :: l2)%list /\
    forall y, In y (l1 ++ l2)%list -> In y d.
Proof.
  induction d as [|[k' v'] d IH]; simpl.
  - exists [], []. simpl. tauto.
  - destruct (String.eqb k' k).
    + exists [], d. simpl. split; [reflexivity | auto].
    + destruct IH as (l1 & l2 & Heq & Hin).
      exists ((k', v') :: l1), l2. simpl. rewrite Heq.
      split; [reflexivity | intros y [<- | Hy]; auto].
Qed.

Lemma NoDup_keys_perm (a b : store) :
  Permutation a b -> NoDup (keys a) -> NoDup (keys b).
Proof.
  intros Hp. apply Permutation_NoDup. unfold keys. now apply Permutation_map.
Qed.

Lemma NoDup_keys_sorted state : NoDup (keys state) -> NoDup (keys (sorted_agents state)).
Proof. apply NoDup_keys_perm. symmetry. apply sorted_agents_perm. Qed.

Lemma length_sorted_agents state : List.length (sorted_agents state) = List.length state.
Proof. apply Permutation_length, sorted_agents_perm. Qed.

(** What [trim] is on a dict: at most 100 entries, all of them old ones. *)
Lemma trim_length state :
  NoDup (keys state) -> List.length (trim state) = Nat.min 100 (List.length state).
Proof.
  intros Hnd. unfold trim. destruct (Nat.ltb_spec 100 (List.length state)); [|lia].
  rewrite dict_of_items_nodup by now apply NoDup_keys_lastn, NoDup_keys_sorted.
  now rewrite lastn_length, length_sorted_agents.
Qed.

Lemma NoDup_keys_trim state : NoDup (keys state) -> NoDup (keys (trim state)).
Proof.
  intros Hnd. unfold trim. destruct (Nat.ltb 100 (List.length state)); [|assumption].
  rewrite dict_of_items_nodup; now apply NoDup_keys_lastn, NoDup_keys_sorted.
Qed.

Lemma trim_incl state x : NoDup (keys state) -> In x (trim state) -> In x state.
Proof.
  intros Hnd. unfold trim. destruct (Nat.ltb 100 (List.length state)); [|trivial].
  rewrite dict_of_items_nodup by now apply NoDup_keys_lastn, NoDup_keys_sorted.
  intros Hin. apply lastn_incl in Hin.
  now apply (Permutation_in _ (sorted_agents_perm state)).
Qed.

Lemma trim_get_none state k :
  NoDup (keys state) -> dict_get state k = None -> dict_get (trim state) k = None.
Proof.
  intros Hnd Hnone. destruct (dict_get (trim state) k) as [v|] eqn:Hget; [|reflexivity].
  apply dict_get_some_in, trim_incl in Hget; [|assumption].
  apply in_dict_get in Hget; [congruence | assumption].
Qed.

(** The entry just written survives the trim when the dict had room, or
    when everything else in it is strictly older. *)
Lemma trim_keeps_new (state : store) k v :
  NoDup (keys state) ->
  List.length state < 100 \/ Forall (older_than (registered_at v)) state ->
  dict_get (trim (dict_set state k v)) k = Some v.
Proof.
  intros Hnd Hroom.
  pose proof (NoDup_keys_dict_set state k v Hnd) as Hnd'.
  unfold trim. destruct (Nat.ltb_spec 100 (List.length (dict_set state k v))) as [Hbig|Hsmall].
  - destruct Hroom as [Hlt | Hold].
    { rewrite length_dict_set in Hbig. destruct (dict_get state k); lia. }
    rewrite dict_of_items_nodup by now apply NoDup_keys_lastn, NoDup_keys_sorted.
    apply in_dict_get; [now apply NoDup_keys_lastn, NoDup_keys_sorted|].
    destruct (dict_set_split state k v) as (l1 & l2 & Heq & Hin).
    rewrite Heq, sorted_agents_youngest_last.
    + apply (lastn_snoc 99).
    + rewrite Forall_forall in *. intros y Hy. apply Hold. now apply Hin.
  - apply dict_get_set_same.
Qed.

(** *** What is evicted *)

Lemma string_compare_trans_le a : forall b c,
  String.compare a b <> Gt -> String.compare b c <> Gt -> String.compare a c <> Gt.
Proof.
  induction a as [|x a IH]; intros [|y b] [|z c]; simpl; try congruence.
  unfold Ascii.compare.
  destruct (N.compare_spec (N_of_ascii x) (N_of_ascii y)) as [Hxy|Hxy|Hxy],
    (N.compare_spec (N_of_ascii y) (N_of_ascii z)) as [Hyz|Hyz|Hyz],
    (N.compare_spec (N_of_ascii x) (N_of_ascii z)) as [Hxz|Hxz|Hxz];
    try congruence; try lia.
  apply IH.
Qed.

Lemma leb_trans a b c :
  String.leb a b = true -> String.leb b c = true -> String.leb a c = true.
Proof.
  unfold String.leb. intros Hab Hbc.
  pose proof (string_compare_trans_le a b c) as H.
  destruct (String.compare a b), (String.compare b c), (String.compare a c);
    try reflexivity; try discriminate; exfalso; apply H; congruence.
Qed.

Lemma leb_false_flip a b : String.leb a b = false -> String.leb b a = true.
Proof. destruct (String.leb_total a b); congruence. Qed.

Lemma insert_by_time_sorted x l :
  StronglySorted not_after l -> StronglySorted not_after (insert_by_time x l).
Proof.
  induction 1 as [|y l Hl IH Hy]; simpl.
  - repeat constructor.
  - destruct (String.leb (registered_at (snd x)) (registered_at (snd y))) eqn:Hxy.
    + constructor; [now constructor|]. constructor; [exact Hxy|].
      rewrite Forall_forall in *. intros z Hz. unfold not_after in *.
      apply (leb_trans _ (time_of y)); [exact Hxy | now apply Hy].
    + constructor; [assumption|].
      rewrite Forall_forall in *. intros z Hz.
      apply (Permutation_in _ (insert_by_time_perm x l)) in Hz as [<- | Hz].
      * now apply leb_false_flip.
      * now apply Hy.
Qed.

(** [sorted] sorts. *)
Lemma sorted_agents_sorted state : StronglySorted not_after (sorted_agents state).
Proof.
  induction state as [|x l IH]; simpl; [constructor | now apply insert_by_time_sorted].
Qed.

Lemma sorted_app_le (l1 l2 : list (string * agent_info)) x y :
  StronglySorted not_after (l1 ++ l2)%list -> In x l1 -> In y l2 -> not_after x y.
Proof.
  induction l1 as [|a l1 IH]; simpl; [tauto|].
  intros Hs [-> | Hx] Hy; apply StronglySorted_inv in Hs as [Hs Ha].
  - rewrite Forall_forall in Ha. apply Ha, in_or_app. now right.
  - now apply IH.
Qed.

(** Every record the trim drops was registered no later than every record
    it keeps, and 100 records are kept. *)
Lemma trim_evicts_oldest state x y :
  NoDup (keys state) ->
  In x state -> ~ In x (trim state) -> In y (trim state) ->
  not_after x y /\ List.length (trim state) = 100.
Proof.
  intros Hnd Hx Hout Hy. pose proof (trim_length state Hnd) as Hlen.
  unfold trim in *. destruct (Nat.ltb_spec 100 (List.length state)) as [Hbig|]; [|tauto].
  rewrite dict_of_items_nodup in * by now apply NoDup_keys_lastn, NoDup_keys_sorted.
  split; [|lia]. unfold lastn in *.
  set (n := List.length (sorted_agents state) - 100) in *.
  apply (sorted_app_le (firstn n (sorted_agents state)) (skipn n (sorted_agents state)));
    [rewrite firstn_skipn; apply sorted_agents_sorted | | assumption].
  apply (Permutation_in _ (Permutation_sym (sorted_agents_perm state))) in Hx.
  rewrite <- (firstn_skipn n (sorted_agents state)) in Hx.
  apply in_app_or in Hx as [Hx | Hx]; tauto.
Qed.

(** ** The tracker, one call after another *)

Lemma read_write_state E w state :
  state_writable E = true -> _read_state (_write_state E w state) = state.
Proof. intros H. unfold _write_state. now rewrite H. Qed.

Lemma truthy_str k : k <> "" -> truthy (JStr k) = true.
Proof. intros H. simpl. apply String.eqb_neq in H. now rewrite H. Qed.

(** After a registration that reaches the file, at most 100 records. *)
Lemma register_agent_bounded E w k ty mo de w' :
  k <> "" -> state_writable E = true -> NoDup (keys (_read_state w)) ->
  register_agent E w (JStr k) ty mo de = Ok w' ->
  record_count w' <= 100.
Proof.
  intros Hk Hw Hnd. unfold register_agent. rewrite (truthy_str k Hk). simpl.
  intros [= <-]. unfold record_count. rewrite (read_write_state _ _ _ Hw).
  rewrite trim_length by now apply NoDup_keys_dict_set. lia.
Qed.

(** C1 (as the code has it): a hundred registrations of distinct agents
    starting from the empty store leave 100 records, and a
    [set_pending_task] after them leaves 101: that operation adds its
    record without evicting any, so the bound of 100 does not hold after
    every operation. *)
Theorem set_pending_exceeds_bound :
  record_count (apply_ops sample_env empty_world (register_many 100)) = 100 /\
  record_count
    (apply_ops sample_env empty_world
       (register_many 100 ++ [OpSetPending "s1" (JStr "Explore") JNull JNull])%list) = 101.
Proof. split; vm_compute; reflexivity. Qed.

(** On a store that is full of younger records, a registration stamped by
    a clock that stepped back is evicted by its own trim. *)
Lemma register_evicted_when_clock_steps_back :
  exists w1,
    record_count (apply_ops later_env empty_world (register_many 100)) = 100 /\
    register_agent sample_env (apply_ops later_env empty_world (register_many 100))
      (JStr "late") (JStr "Explore") JNull JNull = Ok w1 /\
    lookup_agent w1 (JStr "late") = Ok None /\
    record_count w1 = 100.
Proof. eexists. repeat split; vm_compute; reflexivity. Qed.

(** C7 (counterexample): registering the empty key twice stores nothing,
    and looking it up finds nothing. *)
Lemma register_empty_key_twice :
  exists w1 w2,
    register_agent sample_env empty_world (JStr "") (JStr "Explore") JNull JNull = Ok w1 /\
    register_agent later_env w1 (JStr "") (JStr "Explore") JNull JNull = Ok w2 /\
    lookup_agent w2 (JStr "") = Ok None /\
    record_count w2 = 0.
Proof. exists empty_world, empty_world. repeat split. Qed.

(** C7 (amended): for every non-empty key [k] and metadata [(ty, mo, de)],
    on a state file that can be written and holds fewer than 100 records,
    or only records strictly older than the first call, registering
    [k] twice with the same metadata makes [lookup_agent k] return that
    metadata, and the second call leaves the record count of the first. *)
Theorem register_twice E1 E2 w k ty mo de :
  k <> "" ->
  state_writable E1 = true -> state_writable E2 = true ->
  NoDup (keys (_read_state w)) ->
  record_count w < 100 \/ Forall (older_than (now_iso E1)) (_read_state w) ->
  exists w1 w2 info,
    register_agent E1 w (JStr k) ty mo de = Ok w1 /\
    register_agent E2 w1 (JStr k) ty mo de = Ok w2 /\
    lookup_agent w2 (JStr k) = Ok (Some info) /\
    subagent_type info = ty /\ model info = mo /\ description info = de /\
    record_count w2 = record_count w1.
Proof.
  intros Hk Hw1 Hw2 Hnd Hroom.
  unfold register_agent, lookup_agent, record_count. rewrite (truthy_str k Hk). simpl.
  set (st1 := trim (dict_set (_read_state w) k (new_info E1 ty mo de))).
  assert (Hget1 : dict_get st1 k = Some (new_info E1 ty mo de))
    by (apply trim_keeps_new; assumption).
  assert (Hnd1 : NoDup (keys st1)) by now apply NoDup_keys_trim, NoDup_keys_dict_set.
  assert (Hlen1 : List.length st1 <= 100).
  { unfold st1. rewrite trim_length by now apply NoDup_keys_dict_set. lia. }
  assert (Hst2 : trim (dict_set st1 k (new_info E2 ty mo de))
                 = dict_set st1 k (new_info E2 ty mo de)).
  { unfold trim. rewrite length_dict_set, Hget1.
    destruct (Nat.ltb_spec 100 (List.length st1)); [lia | reflexivity]. }
  eexists _, _, (new_info E2 ty mo de). split; [reflexivity|].
  rewrite !read_write_state by assumption. fold st1. rewrite Hst2.
  split; [reflexivity|]. rewrite !read_write_state by assumption.
  split; [now rewrite dict_get_set_same|].
  repeat split. now rewrite length_dict_set, Hget1.
Qed.

Lemma register_twice_witness :
  exists w1 w2 info,
    register_agent sample_env empty_world (JStr "a1") (JStr "Explore") JNull JNull = Ok w1 /\
    register_agent later_env w1 (JStr "a1") (JStr "Explore") JNull JNull = Ok w2 /\
    lookup_agent w2 (JStr "a1") = Ok (Some info) /\
    subagent_type info = JStr "Explore" /\ model info = JNull /\ description info = JNull /\
    record_count w2 = record_count w1.
Proof.
  apply (register_twice sample_env later_env empty_world "a1").
  - discriminate.
  - reflexivity.
  - reflexivity.
  - simpl. constructor.
  - left. vm_compute. lia.
Defined.

(** C10: for every session id without a pending entry in the store,
    [get_and_clear_pending_task] returns the empty result and leaves the
    world as it was: the state file keeps its contents and no write is
    added to the trace. *)
Theorem take_without_pending E w session_id :
  dict_get (_read_state w) (pending_key E session_id) = None ->
  get_and_clear_pending_task E w session_id = (w, None).
Proof. intros H. unfold get_and_clear_pending_task. now rewrite H. Qed.

Lemma take_without_pending_witness :
  get_and_clear_pending_task sample_env pending_world (JStr "s2") = (pending_world, None).
Proof. apply take_without_pending. reflexivity. Defined.

(** ** Pending keys and agent ids *)

(** C6 (counterexample): the agent id [pending_s1] is the pending key of
    session [s1]; once that session has a pending task, looking the agent
    up finds the pending record. *)
Lemma pending_key_collision :
  pending_key sample_env (JStr "s1") = "pending_s1" /\
  lookup_agent (set_pending_task sample_env empty_world (JStr "s1") (JStr "Explore") JNull JNull)
    (JStr "pending_s1")
  = Ok (Some (new_info sample_env (JStr "Explore") JNull JNull)).
Proof. split; reflexivity. Qed.

Lemma prefix_append a b : String.prefix a (a ++ b) = true.
Proof.
  induction a as [|c a IH]; simpl.
  - now destruct b.
  - destruct (Ascii.ascii_dec c c); [assumption | congruence].
Qed.

(** C6 (amended): the pending key of every session differs from every
    agent id that does not begin with [pending_]. *)
Theorem pending_key_not_agent_id E session_id agent_id :
  String.prefix "pending_" agent_id = false ->
  pending_key E session_id <> agent_id.
Proof.
  intros Hpre Heq. subst agent_id. unfold pending_key in Hpre.
  now rewrite prefix_append in Hpre.
Qed.

Lemma pending_key_not_agent_id_witness :
  pending_key sample_env (JStr "s1") <> "a1b2c3".
Proof. apply pending_key_not_agent_id. reflexivity. Defined.

(** ** How the process ends *)

(** C4 (as the code has it): standard input holding the JSON value [[]]
    ends the process with an [AttributeError], and a session log that
    cannot be opened for appending ends it with an [OSError]; either way
    the exit code is 1, not 0. *)
Theorem main_exceptions_escape :
  snd (main sample_env fresh_world (StdinJson (JArr []))) = Uncaught AttributeError /\
  exit_code (snd (main sample_env fresh_world (StdinJson (JArr [])))) = 1%Z /\
  snd (main full_disk_env fresh_world (StdinJson (JObj session_start_event)))
  = Uncaught OSError /\
  exit_code (snd (main full_disk_env fresh_world (StdinJson (JObj session_start_event))))
  = 1%Z.
Proof. repeat split. Qed.




(** Line 143 catches [JSONDecodeError] alone: whatever else [json.load]
    raises ends the process. *)
Lemma broken_input_escapes E w e :
  e <> JSONDecodeError ->
  log_dir w <> DirBlocked ->
  snd (main E w (StdinBroken e)) = Uncaught e.
Proof.
  intros He Hdir. unfold main, run, bindM, try_world, mkdir. simpl json_load.
  destruct w as [d f l t tr]. simpl in *.
  destruct d; simpl; [| |congruence]; destruct e; simpl; congruence.
Qed.

(** ** Racing invocations *)

(** A process running alone through [take_step] does what
    [get_and_clear_pending_task] does. *)
Lemma solo_take_agrees E w session_id :
  state_writable E = true ->
  exists n final,
    run_schedule (pending_key E session_id) (repeat 0 n)
      {| disk := {| contents := state_file w; flock := Unlocked |};
         procs := [TakeStart] |} = Some final /\
    procs final = [TakeDone (snd (get_and_clear_pending_task E w session_id))] /\
    contents (disk final) = state_file (fst (get_and_clear_pending_task E w session_id)) /\
    flock (disk final) = Unlocked.
Proof.
  intros Hw. unfold get_and_clear_pending_task, _write_state, _read_state.
  rewrite Hw. destruct (state_file w) as [| |state] eqn:Hfile.
  - exists 2. eexists. simpl. repeat split. now rewrite Hfile.
  - exists 4. eexists. simpl. repeat split. now rewrite Hfile.
  - destruct (dict_get state (pending_key E session_id)) as [info|] eqn:Hget.
    + exists 8. eexists. simpl. unfold system_step. simpl. rewrite Hget. simpl.
      repeat split.
    + exists 4. eexists. simpl. unfold system_step. simpl. rewrite Hget. simpl.
      repeat split. now rewrite Hfile.
Qed.

(** C8 (as the code has it): two processes take the pending task of the
    same session.  When both have read the state file before either
    writes it back, both return the entry; run one after the other, only
    the first one does.  The read and the write-back are not one step
    under one lock. *)
Theorem take_pending_race :
  (exists final,
      run_schedule "pending_s1" racing_schedule two_takers = Some final /\
      returned final = [Some (Some explore_info); Some (Some explore_info)]) /\
  (exists final,
      run_schedule "pending_s1" (serial_schedule 0 1) two_takers = Some final /\
      returned final = [Some (Some explore_info); Some None]) /\
  (exists final,
      run_schedule "pending_s1" (serial_schedule 1 0) two_takers = Some final /\
      returned final = [Some None; Some (Some explore_info)]).
Proof. repeat split; eexists; split; vm_compute; reflexivity. Qed.

(** ** Reasoning about [M] *)

Lemma keeps_logs_ret {A} (a : A) : keeps_logs (ret a).
Proof. now intros w. Qed.

Lemma keeps_logs_lift {A} (r : result A) : keeps_logs (lift r).
Proof. now intros w. Qed.

Lemma keeps_logs_bind {A B} (m : M A) (f : A -> M B) :
  keeps_logs m -> (forall a, keeps_logs (f a)) -> keeps_logs (bindM m f).
Proof.
  intros Hm Hf w. unfold bindM. specialize (Hm w).
  destruct (m w) as [w' [a|e]]; simpl in *; [|assumption].
  now rewrite Hf.
Qed.

Lemma yields_ret {A} (a : A) (Q : A -> Prop) : Q a -> yields (ret a) Q.
Proof. intros H w w' a' [= <- <-]. exact H. Qed.

Lemma yields_bind {A B} (m : M A) (f : A -> M B) (P : A -> Prop) (Q : B -> Prop) :
  yields m P -> (forall a, P a -> yields (f a) Q) -> yields (bindM m f) Q.
Proof.
  intros Hm Hf w w' b. unfold bindM.
  destruct (m w) as [w1 [a|e]] eqn:Hrun; [|discriminate].
  intros Hfa. exact (Hf a (Hm _ _ _ Hrun) _ _ _ Hfa).
Qed.

Lemma yields_any {A} (m : M A) : yields m (fun _ => True).
Proof. now intros w w' a _. Qed.

Lemma yields_lift {A} (r : result A) (Q : A -> Prop) :
  (forall a, r = Ok a -> Q a) -> yields (lift r) Q.
Proof. intros H w w' a [= <- Hr]. now apply H. Qed.

Lemma succeeds_ret {A} (a : A) : succeeds (ret a).
Proof. intros w. now exists w, a. Qed.

Lemma succeeds_lift {A} (a : A) : succeeds (lift (Ok a)).
Proof. intros w. now exists w, a. Qed.

Lemma succeeds_modify f : succeeds (modify f).
Proof. intros w. now exists (f w), tt. Qed.

Lemma succeeds_bind {A B} (m : M A) (f : A -> M B) :
  succeeds m -> (forall a, succeeds (f a)) -> succeeds (bindM m f).
Proof.
  intros Hm Hf w. unfold bindM. destruct (Hm w) as (w1 & a & ->). apply Hf.
Qed.

(** ** The tracker does not touch the session logs *)

Lemma session_logs_write_state E w state :
  session_logs (_write_state E w state) = session_logs w.
Proof. unfold _write_state. now destruct (state_writable E). Qed.

Lemma keeps_logs_register E agent_id ty mo de :
  keeps_logs (try_world (fun w => register_agent E w agent_id ty mo de)).
Proof.
  intros w. unfold try_world, register_agent.
  destruct (truthy agent_id); simpl; [|reflexivity].
  destruct agent_id; simpl; try reflexivity; apply session_logs_write_state.
Qed.

Lemma keeps_logs_set_pending E session_id ty mo de :
  keeps_logs (modify (fun w => set_pending_task E w session_id ty mo de)).
Proof. intros w. apply session_logs_write_state. Qed.

Lemma keeps_logs_resolve E session_id agent_id entry :
  keeps_logs (resolve_subagent E session_id agent_id entry).
Proof.
  unfold resolve_subagent. apply keeps_logs_bind; [now intros w|].
  intros [info|]; [apply keeps_logs_ret|].
  apply keeps_logs_bind.
  - intros w. unfold get_and_clear_pending_task.
    destruct (dict_get _ _); simpl; [apply session_logs_write_state | reflexivity].
  - intros [p|]; [|apply keeps_logs_ret].
    apply keeps_logs_bind; [apply keeps_logs_register | intros; apply keeps_logs_ret].
Qed.

Ltac keeps_logs_step :=
  first
    [ apply keeps_logs_ret
    | apply keeps_logs_lift
    | apply keeps_logs_register
    | apply keeps_logs_set_pending
    | apply keeps_logs_resolve
    | apply keeps_logs_bind; [|intros ?]
    | match goal with
      | |- keeps_logs (if ?b then _ else _) => destruct b
      | |- keeps_logs (let x := _ in _) => cbv zeta
      end ].

Lemma keeps_logs_build_entry E input_data : keeps_logs (build_entry E input_data).
Proof. unfold build_entry. repeat keeps_logs_step. Qed.

(** ** What [main] appends *)

Lemma bindM_ok_inv {A B} (m : M A) (f : A -> M B) w w' b :
  bindM m f w = (w', Ok b) ->
  exists w1 a, m w = (w1, Ok a) /\ f a w1 = (w', Ok b).
Proof.
  unfold bindM. destruct (m w) as [w1 [a|e]]; [|discriminate].
  intros H. now exists w1, a.
Qed.

Lemma mkdir_ok_inv w w1 u :
  try_world mkdir w = (w1, Ok u) ->
  session_logs w1 = session_logs w /\ state_file w1 = state_file w /\
  log_dir w1 = DirPresent.
Proof.
  unfold try_world, mkdir. destruct (log_dir w) eqn:Hd; intros [= <-]; simpl; auto.
Qed.

(** When [main] exits on an input that is a dict, it has built an entry
    and appended it, without its [None] values, to the log of the session. *)
Lemma main_exit_inv E w input_data w' code :
  main E w (StdinJson (JObj input_data)) = (w', Exit code) ->
  exists w0 w1 entry,
    session_logs w0 = session_logs w /\
    state_file w0 = state_file w /\
    build_entry E input_data w0 = (w1, Ok entry) /\
    state_file w' = state_file w1 /\
    lines_of w' (session_file E input_data)
    = (lines_of w (session_file E input_data) ++ [remove_none entry])%list.
Proof.
  unfold main. destruct (run E _ w) as [w2 [c|e]] eqn:Hrun; [|discriminate].
  intros [= -> ->]. unfold run in Hrun. simpl in Hrun.
  apply bindM_ok_inv in Hrun as (wa & [] & Hmk1 & Hrun).
  apply bindM_ok_inv in Hrun as (wb & [] & Hmk2 & Hrun).
  apply bindM_ok_inv in Hrun as (wc & [] & Hrec & Hfin).
  injection Hfin as -> _.
  apply mkdir_ok_inv in Hmk1 as (Hl1 & Hs1 & _).
  apply mkdir_ok_inv in Hmk2 as (Hl2 & Hs2 & _).
  unfold record_event in Hrec.
  apply bindM_ok_inv in Hrec as (w1 & entry & Hbuild & Hrec).
  apply bindM_ok_inv in Hrec as (wd & [] & Happ & Hrec).
  apply bindM_ok_inv in Hrec as (we & [] & Hlink & Hret).
  injection Hret as ->.
  exists wb, w1, entry. split; [congruence|]. split; [congruence|].
  split; [assumption|].
  pose proof (keeps_logs_build_entry E input_data wb) as Hkeep.
  rewrite Hbuild in Hkeep. simpl in Hkeep.
  unfold append_log in Happ.
  destruct (appendable E (session_file E input_data)); [|discriminate].
  injection Happ as <-.
  unfold relink in Hlink.
  assert (Hlogs : session_logs w'
                  = dict_set (session_logs w1) (session_file E input_data)
                      (lines_of w1 (session_file E input_data) ++ [remove_none entry])%list
                  /\ state_file w' = state_file w1).
  { destruct (link_updatable E); injection Hlink as <-; simpl; auto. }
  destruct Hlogs as [Hlogs Hstate]. split; [assumption|].
  unfold lines_of at 1. rewrite Hlogs, dict_get_set_same.
  unfold lines_of. now rewrite Hkeep, Hl2, Hl1.
Qed.

Lemma remove_none_no_null entry : no_null (remove_none entry).
Proof.
  unfold no_null, remove_none. apply Forall_forall. intros [k v] Hin.
  apply filter_In in Hin as [_ Hv]. simpl in *. now destruct v.
Qed.

(** C3 (counterexample): the record persisted for a [SessionStart] event
    that carries no tool input has the key [tool_input] with the empty
    dict as its value. *)
Lemma empty_tool_input_persisted :
  lines_of (fst (main sample_env fresh_world (StdinJson (JObj session_start_event))))
    "hooks-s1.jsonl"
  = [[("ts", JStr "2026-01-01T00:00:00Z"); ("session_id", JStr "s1");
      ("event", JStr "SessionStart"); ("tool_input", JObj []);
      ("source", JStr "startup")]] /\
  truthy (JObj []) = false.
Proof. split; reflexivity. Qed.

(** C3 (amended): for every input event, the record [main] appends to the
    session log before exiting has no key whose value is [None]; values
    that are empty but not [None] are kept. *)
Theorem persisted_record_has_no_null E w input_data w' code :
  main E w (StdinJson (JObj input_data)) = (w', Exit code) ->
  exists line,
    lines_of w' (session_file E input_data)
    = (lines_of w (session_file E input_data) ++ [line])%list /\
    no_null line.
Proof.
  intros Hmain. apply main_exit_inv in Hmain as (w0 & w1 & entry & _ & _ & _ & _ & Hlines).
  exists (remove_none entry). split; [assumption | apply remove_none_no_null].
Qed.

Lemma persisted_record_has_no_null_witness :
  exists line,
    lines_of (fst (main sample_env fresh_world (StdinJson (JObj session_start_event))))
      (session_file sample_env session_start_event)
    = (lines_of fresh_world (session_file sample_env session_start_event) ++ [line])%list /\
    no_null line.
Proof.
  apply (persisted_record_has_no_null sample_env fresh_world session_start_event _ 0%Z).
  reflexivity.
Defined.

(** ** A well-formed event raises nothing *)

Lemma lookup_agent_ok w a : str_or_null a = true -> exists r, lookup_agent w a = Ok r.
Proof.
  unfold lookup_agent. destruct a; try discriminate; intros _; simpl; eauto.
  destruct (negb _); eauto.
Qed.

Lemma register_agent_ok E w a ty mo de :
  str_or_null a = true -> exists w', register_agent E w a ty mo de = Ok w'.
Proof.
  unfold register_agent. destruct a; try discriminate; intros _; simpl; eauto.
  destruct (negb _); eauto.
Qed.

Lemma succeeds_register E a ty mo de :
  str_or_null a = true ->
  succeeds (try_world (fun w => register_agent E w a ty mo de)).
Proof.
  intros Ha w. unfold try_world.
  destruct (register_agent_ok E w a ty mo de Ha) as [w' ->]. now exists w', tt.
Qed.

Lemma succeeds_resolve E session_id agent_id entry :
  str_or_null agent_id = true ->
  succeeds (resolve_subagent E session_id agent_id entry).
Proof.
  intros Ha. unfold resolve_subagent. apply succeeds_bind.
  - intros w. destruct (lookup_agent_ok w agent_id Ha) as [r ->]. now exists w, r.
  - intros [info|]; [apply succeeds_ret|].
    apply succeeds_bind.
    + intros w. destruct (get_and_clear_pending_task E w session_id) as [w' p].
      now exists w', p.
    + intros [p|]; [|apply succeeds_ret].
      apply succeeds_bind; [now apply succeeds_register | intros; apply succeeds_ret].
Qed.

Lemma get_last_assistant_message_ok E p :
  str_or_null p = true -> exists s, get_last_assistant_message E p = Ok s.
Proof.
  unfold get_last_assistant_message. destruct p; try discriminate; intros _; simpl; eauto.
  destruct (negb _); eauto. destruct (transcript_lines E s); eauto.
Qed.

Lemma join_lines_ok texts :
  forallb is_string texts = true -> exists s, join_lines texts = Ok s.
Proof.
  induction texts as [|t texts IH]; simpl; [eauto|].
  destruct t; try discriminate. simpl. intros Hrest.
  destruct (IH Hrest) as [s' Hs']. destruct texts; [eauto|].
  rewrite Hs'. simpl. eauto.
Qed.

Lemma text_of_block_strings block :
  well_formed_block block = true -> forallb is_string (text_of_block block) = true.
Proof.
  destruct block as [| | | |l|o]; try reflexivity. simpl.
  destruct (is_str (field o "type") "text"); [|reflexivity].
  unfold absent_or, field_default.
  destruct (dict_get o "text") as [t|]; simpl; [|reflexivity].
  now intros ->.
Qed.

Lemma extract_task_response_ok v :
  well_formed_tool_response v = true -> exists s, extract_task_response v = Ok s.
Proof.
  unfold extract_task_response.
  destruct v as [| | | | |o]; try discriminate; [simpl; eauto|].
  intros Hwf. destruct (negb (truthy (JObj o))); [eauto|].
  simpl in Hwf. apply andb_true_iff in Hwf as [_ Hcontent].
  unfold absent_or in Hcontent. unfold py_get_default.
  destruct (dict_get o "content") as [c|]; cbn [bind]; [|simpl; eauto].
  destruct c as [| | | |blocks|]; try discriminate. cbn [collect_texts bind].
  assert (Hstr : forallb is_string (flat_map text_of_block blocks) = true).
  { simpl in Hcontent. induction blocks as [|b blocks IH]; [reflexivity|].
    simpl in Hcontent. apply andb_true_iff in Hcontent as [Hb Hrest].
    cbn [flat_map]. rewrite forallb_app, (text_of_block_strings b Hb). now apply IH. }
  destruct (flat_map text_of_block blocks) eqn:Htexts; [eauto|].
  now apply join_lines_ok.
Qed.

Lemma copy_fields_ok o pairs entry :
  exists entry', copy_fields (JObj o) pairs entry = Ok entry'.
Proof.
  revert entry. induction pairs as [|[k src] pairs IH]; intros entry; simpl; eauto.
Qed.

Lemma content_length_ok c : str_or_null c = true -> exists n, content_length c = Ok n.
Proof.
  unfold content_length. destruct c; try discriminate; intros _; simpl; eauto.
  destruct (negb _); eauto.
Qed.

Lemma flatten_tool_ok tool_name o entry :
  absent_or str_or_null o "content" = true ->
  exists entry', flatten_tool tool_name (JObj o) entry = Ok entry'.
Proof.
  intros Hcontent. unfold flatten_tool.
  destruct (negb (truthy (JObj o))); [eauto|].
  repeat match goal with
         | |- exists e, (if ?b then copy_fields _ _ _ else _) = _ =>
             destruct b; [apply copy_fields_ok|]
         end.
  destruct (is_str tool_name "Write").
  - destruct (copy_fields_ok o [("file_path", "file_path")] entry) as [e1 ->]. simpl.
    unfold absent_or in Hcontent.
    destruct (dict_get o "content") as [c|].
    + destruct (content_length_ok c Hcontent) as [n ->]. simpl. eauto.
    + simpl. eauto.
  - repeat match goal with
           | |- exists e, (if ?b then copy_fields _ _ _ else _) = _ =>
               destruct b; [apply copy_fields_ok|]
           end.
    eauto.
Qed.

Lemma tool_input_of_obj input_data :
  absent_or well_formed_tool_input input_data "tool_input" = true ->
  exists o, tool_input_of input_data = JObj o /\ absent_or str_or_null o "content" = true.
Proof.
  unfold absent_or at 1, tool_input_of, field.
  destruct (dict_get input_data "tool_input") as [v|]; simpl; [|now exists []].
  destruct v as [| | | | |o]; try discriminate; simpl; [now exists []|].
  intros H. destruct o; [now exists [] | eauto].
Qed.

Lemma field_str_or_null input_data k :
  absent_or str_or_null input_data k = true -> str_or_null (field input_data k) = true.
Proof. unfold absent_or, field. now destruct (dict_get input_data k). Qed.

Lemma succeeds_bind_lift {A B} (r : result A) (f : A -> M B) :
  (exists a, r = Ok a) -> (forall a, r = Ok a -> succeeds (f a)) ->
  succeeds (bindM (lift r) f).
Proof.
  intros [a Hr] Hf w. unfold bindM, lift. rewrite Hr. now apply Hf.
Qed.

Lemma succeeds_build_entry E input_data :
  well_formed input_data = true -> succeeds (build_entry E input_data).
Proof.
  intros Hwf. unfold well_formed in Hwf.
  repeat (apply andb_true_iff in Hwf as [Hwf ?]).
  destruct (tool_input_of_obj input_data) as (o & Hti & Hcontent); [assumption|].
  unfold build_entry. cbv zeta. rewrite Hti.
  apply succeeds_bind_lift; [now apply flatten_tool_ok | intros entry1 _].
  apply succeeds_bind.
  { destruct (_ && _); [|apply succeeds_ret]. simpl.
    repeat (apply succeeds_bind_lift; [eauto | intros ? _]).
    apply succeeds_modify. }
  intros _. apply succeeds_bind.
  { destruct (is_str _ "PostToolUse"); [|apply succeeds_ret].
    destruct (_ && _) eqn:Hcond; [|apply succeeds_ret].
    apply andb_true_iff in Hcond as [_ Htruthy].
    assert (Hresp : well_formed_tool_response (field input_data "tool_response") = true).
    { unfold absent_or, field in *. now destruct (dict_get input_data "tool_response"). }
    destruct (field input_data "tool_response") as [| | | | |o2] eqn:Hfield;
      try discriminate.
    apply succeeds_bind_lift; [simpl; eauto | intros agent_id Hagent].
    apply succeeds_bind_lift; [now apply extract_task_response_ok | intros response _].
    apply succeeds_bind; [|intros; apply succeeds_ret].
    destruct (_ && _); [|apply succeeds_ret].
    repeat (apply succeeds_bind_lift; [simpl; eauto | intros ? _]).
    apply succeeds_register.
    simpl in Hresp. apply andb_true_iff in Hresp as [Hid _].
    simpl in Hagent. injection Hagent as <-.
    unfold absent_or in Hid. now destruct (dict_get o2 "agentId"). }
  intros entry2. apply succeeds_bind.
  { destruct (is_str _ "Stop"); [|apply succeeds_ret].
    apply succeeds_bind_lift; [|intros; apply succeeds_ret].
    apply get_last_assistant_message_ok.
    unfold absent_or, field_default in *.
    now destruct (dict_get input_data "transcript_path"). }
  intros entry3. apply succeeds_bind; [|intros; apply succeeds_ret].
  destruct (is_str _ "SubagentStop"); [|apply succeeds_ret].
  apply succeeds_bind_lift.
  - apply get_last_assistant_message_ok.
    destruct (truthy (field input_data "agent_transcript_path")).
    + now apply field_str_or_null.
    + unfold absent_or, field_default in *.
      now destruct (dict_get input_data "transcript_path").
  - intros response _. apply succeeds_resolve. now apply field_str_or_null.
Qed.

(** ** The three keys every record has *)

Section Core.
Variables ts sid ev : json.

Lemma has_core_set entry k v :
  core_key k = false -> has_core ts sid ev entry -> has_core ts sid ev (dict_set entry k v).
Proof.
  unfold core_key. intros Hk (Hts & Hsid & Hev).
  apply orb_false_iff in Hk as [Hk Hk3]. apply orb_false_iff in Hk as [Hk1 Hk2].
  apply String.eqb_neq in Hk1, Hk2, Hk3.
  repeat split; rewrite dict_get_set_other; assumption.
Qed.

Lemma copy_fields_core tool_input pairs entry entry' :
  forallb (fun p => negb (core_key (fst p))) pairs = true ->
  copy_fields tool_input pairs entry = Ok entry' ->
  has_core ts sid ev entry -> has_core ts sid ev entry'.
Proof.
  revert entry. induction pairs as [|[k src] pairs IH]; simpl; intros entry Hkeys.
  - now intros [= <-].
  - apply andb_true_iff in Hkeys as [Hk Hrest]. apply negb_true_iff in Hk.
    destruct (py_get tool_input src) as [v|e]; simpl; [|discriminate].
    intros Hcopy Hcore. apply (IH _ Hrest Hcopy). now apply has_core_set.
Qed.

Lemma flatten_tool_core tool_name tool_input entry entry' :
  flatten_tool tool_name tool_input entry = Ok entry' ->
  has_core ts sid ev entry -> has_core ts sid ev entry'.
Proof.
  unfold flatten_tool.
  destruct (negb (truthy tool_input)); [now intros [= <-]|].
  repeat match goal with
         | |- (if ?b then copy_fields _ _ _ else _) = _ -> _ =>
             destruct b; [now apply copy_fields_core|]
         end.
  destruct (is_str tool_name "Write").
  - destruct (copy_fields tool_input _ entry) as [e1|] eqn:Hcopy; simpl; [|discriminate].
    destruct (py_get_default tool_input "content" (JStr "")) as [c|]; simpl; [|discriminate].
    destruct (content_length c) as [n|]; simpl; [|discriminate].
    intros [= <-] Hcore. apply has_core_set; [reflexivity|].
    revert Hcopy Hcore. now apply copy_fields_core.
  - repeat match goal with
           | |- (if ?b then copy_fields _ _ _ else _) = _ -> _ =>
               destruct b; [now apply copy_fields_core|]
           end.
    now intros [= <-].
Qed.

Lemma with_metadata_core entry info :
  has_core ts sid ev entry -> has_core ts sid ev (with_metadata entry info).
Proof. intros H. unfold with_metadata. now repeat apply has_core_set. Qed.

Lemma yields_resolve_core E session_id agent_id entry :
  has_core ts sid ev entry ->
  yields (resolve_subagent E session_id agent_id entry) (has_core ts sid ev).
Proof.
  intros Hcore. unfold resolve_subagent.
  eapply yields_bind; [apply yields_any|]. intros [info|] _.
  - apply yields_ret. now apply with_metadata_core.
  - eapply yields_bind; [apply yields_any|]. intros [p|] _.
    + eapply yields_bind; [apply yields_any|]. intros _ _.
      apply yields_ret. now apply with_metadata_core.
    + now apply yields_ret.
Qed.
End Core.

Lemma yields_build_entry_core E input_data :
  yields (build_entry E input_data)
    (has_core (JStr (now_ts E))
       (field_default input_data "session_id" (JStr "unknown"))
       (field_default input_data "hook_event_name" (JStr "unknown"))).
Proof.
  set (Q := has_core (JStr (now_ts E))
              (field_default input_data "session_id" (JStr "unknown"))
              (field_default input_data "hook_event_name" (JStr "unknown"))).
  unfold build_entry. cbv zeta.
  apply yields_bind with (P := Q).
  { apply yields_lift. intros entry1 Hflat.
    apply (flatten_tool_core _ _ _ _ _ _ _ Hflat). now repeat split. }
  intros entry1 Hcore1. eapply yields_bind; [apply yields_any|]. intros _ _.
  apply yields_bind with (P := Q).
  { destruct (is_str _ "PostToolUse"); [|now apply yields_ret].
    destruct (_ && _).
    - eapply yields_bind; [apply yields_any|]. intros agent_id _.
      eapply yields_bind; [apply yields_any|]. intros response _.
      eapply yields_bind; [apply yields_any|]. intros _ _.
      apply yields_ret. now repeat apply has_core_set.
    - apply yields_ret. now apply has_core_set. }
  intros entry2 Hcore2. apply yields_bind with (P := Q).
  { destruct (is_str _ "Stop"); [|now apply yields_ret].
    eapply yields_bind; [apply yields_any|]. intros response _.
    apply yields_ret. now repeat apply has_core_set. }
  intros entry3 Hcore3. apply yields_bind with (P := Q).
  { destruct (is_str _ "SubagentStop"); [|now apply yields_ret].
    eapply yields_bind; [apply yields_any|]. intros response _.
    apply yields_resolve_core. now repeat apply has_core_set. }
  intros entry4 Hcore4. apply yields_ret.
  unfold Q in *.
  repeat match goal with
         | |- has_core _ _ _ (if ?b then _ else _) => destruct b
         | |- has_core _ _ _ (dict_set _ _ _) => apply has_core_set; [reflexivity|]
         end; assumption.
Qed.

Lemma dict_get_remove_none entry k v :
  dict_get entry k = Some v -> v <> JNull -> dict_get (remove_none entry) k = Some v.
Proof.
  intros Hget Hv. induction entry as [|[k' v'] entry IH]; simpl in *; [discriminate|].
  destruct (String.eqb k' k) eqn:Hk.
  - injection Hget as ->. destruct v; try congruence; simpl; now rewrite Hk.
  - destruct (not_none v'); simpl; [rewrite Hk|]; now apply IH.
Qed.

(** A well-formed event on a disk that takes the append runs to its end. *)
Lemma main_exits E w input_data :
  well_formed input_data = true ->
  log_dir w <> DirBlocked ->
  appendable E (session_file E input_data) = true ->
  exists w', main E w (StdinJson (JObj input_data)) = (w', Exit 0).
Proof.
  intros Hwf Hdir Happ. unfold main, run. simpl json_load. cbv beta iota.
  assert (Hmk : exists w0, bindM (try_world mkdir) (fun _ => try_world mkdir) w = (w0, Ok tt)).
  { unfold bindM, try_world, mkdir.
    destruct w as [d f l t tr]. simpl in *. destruct d; simpl; eauto. congruence. }
  destruct Hmk as [w0 Hmk]. unfold bindM in Hmk.
  unfold bindM at 1. destruct (try_world mkdir w) as [wa [[]|e]]; [|discriminate].
  unfold bindM at 1. rewrite Hmk.
  destruct (succeeds_build_entry E input_data Hwf w0) as (w1 & entry & Hbuild).
  unfold bindM, record_event, bindM. rewrite Hbuild.
  unfold append_log. rewrite Happ. unfold relink.
  destruct (link_updatable E); simpl; eauto.
Qed.

(** ** A completion that arrives before the result *)

Lemma lift_ok_inv {A} (r : result A) w w' a :
  lift r w = (w', Ok a) -> w' = w /\ r = Ok a.
Proof. unfold lift. now intros [= <- ->]. Qed.

Lemma ret_inv {A} (x : A) w w' a : ret x w = (w', Ok a) -> w' = w /\ a = x.
Proof. unfold ret. now intros [= <- <-]. Qed.

(** For a [SubagentStop] event the tracker is only used by lines 277-296. *)
Lemma build_entry_subagent_stop E input_data w0 w1 entry :
  field_default input_data "hook_event_name" (JStr "unknown") = JStr "SubagentStop" ->
  build_entry E input_data w0 = (w1, Ok entry) ->
  exists entry3,
    resolve_subagent E (field_default input_data "session_id" (JStr "unknown"))
      (field input_data "agent_id") entry3 w0 = (w1, Ok entry).
Proof.
  intros Hev. unfold build_entry. cbv zeta. rewrite Hev.
  cbn [is_str String.eqb Ascii.eqb Bool.eqb]. rewrite !andb_false_r.
  intros Hrun.
  apply bindM_ok_inv in Hrun as (wa & entry1 & H1 & Hrun).
  apply lift_ok_inv in H1 as [-> _].
  apply bindM_ok_inv in Hrun as (wb & [] & H2 & Hrun).
  apply ret_inv in H2 as [-> _].
  apply bindM_ok_inv in Hrun as (wc & entry2 & H3 & Hrun).
  apply ret_inv in H3 as [-> ->].
  apply bindM_ok_inv in Hrun as (wd & entry3 & H4 & Hrun).
  apply ret_inv in H4 as [-> ->].
  apply bindM_ok_inv in Hrun as (we & entry4 & H5 & Hrun).
  apply ret_inv in Hrun as [-> ->].
  apply bindM_ok_inv in H5 as (wf & response & H6 & H5).
  apply lift_ok_inv in H6 as [-> _].
  eexists. exact H5.
Qed.

Lemma with_metadata_get entry info :
  dict_get (with_metadata entry info) "subagent_type" = Some (subagent_type info) /\
  dict_get (with_metadata entry info) "subagent_model" = Some (model info) /\
  dict_get (with_metadata entry info) "subagent_description" = Some (description info).
Proof.
  unfold with_metadata. repeat split.
  - rewrite !dict_get_set_other by discriminate. apply dict_get_set_same.
  - rewrite dict_get_set_other by discriminate. apply dict_get_set_same.
  - apply dict_get_set_same.
Qed.

Lemma Forall_dict_remove (P : string * agent_info -> Prop) (d : store) k :
  Forall P d -> Forall P (dict_remove d k).
Proof.
  rewrite !Forall_forall. intros H x Hx. apply H. now apply dict_remove_in in Hx.
Qed.

(** Lines 277-296 when the agent is unknown and the session has a pending
    task: the task is taken, and the agent is registered with its metadata. *)
Lemma resolve_subagent_fallback E w session_id agent_id pending entry :
  agent_id <> "" ->
  state_writable E = true ->
  NoDup (keys (_read_state w)) ->
  dict_get (_read_state w) (pending_key E session_id) = Some pending ->
  dict_get (_read_state w) agent_id = None ->
  record_count w <= 100 \/ Forall (older_than (now_iso E)) (_read_state w) ->
  exists w',
    resolve_subagent E session_id (JStr agent_id) entry w
    = (w', Ok (with_metadata entry pending)) /\
    dict_get (_read_state w') agent_id
    = Some (new_info E (subagent_type pending) (model pending) (description pending)) /\
    dict_get (_read_state w') (pending_key E session_id) = None.
Proof.
  intros Hid Hw Hnd Hpending Hunknown Hroom.
  assert (Hne : agent_id <> pending_key E session_id) by congruence.
  unfold resolve_subagent, bindM, lookup_agent.
  rewrite (truthy_str _ Hid). simpl negb. cbv iota. rewrite Hunknown.
  unfold get_and_clear_pending_task. rewrite Hpending.
  unfold try_world, register_agent. rewrite (truthy_str _ Hid). simpl negb. cbv iota.
  rewrite !read_write_state by assumption.
  set (rest := dict_remove (_read_state w) (pending_key E session_id)).
  assert (Hnd' : NoDup (keys rest)) by now apply NoDup_keys_dict_remove.
  eexists. split; [reflexivity|]. rewrite read_write_state by assumption. split.
  - apply trim_keeps_new; [assumption|]. destruct Hroom as [Hlen | Hold].
    + left. unfold record_count in Hlen.
      pose proof (length_dict_remove _ _ _ Hpending). fold rest in H. lia.
    + right. now apply Forall_dict_remove.
  - apply trim_get_none; [now apply NoDup_keys_dict_set|].
    rewrite dict_get_set_other by assumption.
    now apply dict_get_remove_same.
Qed.

Lemma read_state_eq a b : state_file a = state_file b -> _read_state a = _read_state b.
Proof. unfold _read_state. now intros ->. Qed.

(** C2 (counterexample): a [SubagentStop] event whose agent id is the
    empty string, in a session with a pending task: the pending task is
    taken, and nothing is registered under that id. *)
Lemma empty_agent_id_not_registered :
  snd (main sample_env pending_world (StdinJson (JObj (subagent_stop_event ""))))
  = Exit 0 /\
  dict_get (_read_state pending_world) "" = None /\
  dict_get (_read_state pending_world) (pending_key sample_env (JStr "s1"))
  = Some explore_info /\
  _read_state (fst (main sample_env pending_world
                      (StdinJson (JObj (subagent_stop_event ""))))) = [] /\
  lookup_agent (fst (main sample_env pending_world
                       (StdinJson (JObj (subagent_stop_event ""))))) (JStr "")
  = Ok None.
Proof. repeat split. Qed.

(** C2 (amended): for every session id [S] with a pending entry holding
    metadata [M2] and every non-empty agent id [I] that is not a key of the
    store, on a disk that can be written and a store that holds at most 100
    records or only records strictly older than now, a well-formed
    [SubagentStop] event for [I] in session [S] makes [main] exit with code
    0 having logged the metadata of [M2]; afterwards [lookup_agent I]
    returns the metadata of [M2], and taking the pending task of [S] again
    returns nothing. *)
Theorem subagent_stop_takes_pending E w input_data S I M2 :
  well_formed input_data = true ->
  dict_get input_data "session_id" = Some (JStr S) ->
  dict_get input_data "hook_event_name" = Some (JStr "SubagentStop") ->
  dict_get input_data "agent_id" = Some (JStr I) ->
  I <> "" ->
  log_dir w <> DirBlocked ->
  appendable E (session_file E input_data) = true ->
  state_writable E = true ->
  NoDup (keys (_read_state w)) ->
  dict_get (_read_state w) (pending_key E (JStr S)) = Some M2 ->
  dict_get (_read_state w) I = None ->
  record_count w <= 100 \/ Forall (older_than (now_iso E)) (_read_state w) ->
  exists w' entry info,
    main E w (StdinJson (JObj input_data)) = (w', Exit 0) /\
    lines_of w' (session_file E input_data)
    = (lines_of w (session_file E input_data) ++ [remove_none entry])%list /\
    dict_get entry "subagent_type" = Some (subagent_type M2) /\
    dict_get entry "subagent_model" = Some (model M2) /\
    dict_get entry "subagent_description" = Some (description M2) /\
    lookup_agent w' (JStr I) = Ok (Some info) /\
    subagent_type info = subagent_type M2 /\
    model info = model M2 /\
    description info = description M2 /\
    get_and_clear_pending_task E w' (JStr S) = (w', None).
Proof.
  intros Hwf Hsid Hev Haid HI Hdir Happ Hw Hnd Hpending Hunknown Hroom.
  destruct (main_exits E w input_data Hwf Hdir Happ) as [w' Hmain].
  destruct (main_exit_inv _ _ _ _ _ Hmain)
    as (w0 & w1 & entry & _ & Hs0 & Hbuild & Hs1 & Hlines).
  apply build_entry_subagent_stop in Hbuild as [entry3 Hresolve];
    [|unfold field_default; now rewrite Hev].
  unfold field_default, field in Hresolve. rewrite Hsid, Haid in Hresolve.
  pose proof (read_state_eq _ _ Hs0) as Hr0.
  destruct (resolve_subagent_fallback E w0 (JStr S) I M2 entry3)
    as (w1' & Hresolve' & Hreg & Hgone); try assumption; try (rewrite Hr0; assumption).
  { unfold record_count in *. now rewrite Hr0. }
  rewrite Hresolve in Hresolve'. injection Hresolve' as <- ->.
  pose proof (read_state_eq _ _ Hs1) as Hr1.
  destruct (with_metadata_get entry3 M2) as (Hty & Hmo & Hde).
  exists w', (with_metadata entry3 M2),
    (new_info E (subagent_type M2) (model M2) (description M2)).
  repeat split; try assumption.
  - unfold lookup_agent. rewrite (truthy_str _ HI). simpl. now rewrite Hr1, Hreg.
  - unfold get_and_clear_pending_task. now rewrite Hr1, Hgone.
Qed.

Lemma subagent_stop_takes_pending_witness :
  exists w' entry info,
    main later_env pending_world (StdinJson (JObj (subagent_stop_event "a1b2c3")))
    = (w', Exit 0) /\
    lines_of w' "hooks-s1.jsonl"
    = (lines_of pending_world "hooks-s1.jsonl" ++ [remove_none entry])%list /\
    dict_get entry "subagent_type" = Some (JStr "Explore") /\
    dict_get entry "subagent_model" = Some (JStr "haiku") /\
    dict_get entry "subagent_description" = Some (JStr "find the parser") /\
    lookup_agent w' (JStr "a1b2c3") = Ok (Some info) /\
    subagent_type info = JStr "Explore" /\
    model info = JStr "haiku" /\
    description info = JStr "find the parser" /\
    get_and_clear_pending_task later_env w' (JStr "s1") = (w', None).
Proof.
  apply (subagent_stop_takes_pending later_env pending_world
           (subagent_stop_event "a1b2c3") "s1" "a1b2c3" explore_info).
  - reflexivity.
  - reflexivity.
  - reflexivity.
  - reflexivity.
  - discriminate.
  - discriminate.
  - reflexivity.
  - reflexivity.
  - simpl. repeat constructor. simpl. tauto.
  - reflexivity.
  - reflexivity.
  - left. vm_compute. lia.
Defined.

(** * Further properties of the tracker *)

Lemma distinct_NoDup l : distinct l = true -> NoDup l.
Proof.
  induction l as [|x l IH]; simpl; [constructor|].
  intros H. apply andb_true_iff in H as [Hx Hl]. constructor; [|now apply IH].
  intros Hin. apply negb_true_iff in Hx.
  assert (Hex : existsb (String.eqb x) l = true).
  { apply existsb_exists. exists x. split; [assumption | apply String.eqb_refl]. }
  congruence.
Qed.

Lemma pending_key_str E s : pending_key E (JStr s) = "pending_" ++ s.
Proof. reflexivity. Qed.

Lemma dict_get_remove_other {V} (d : dict V) k k' :
  k <> k' -> dict_get (dict_remove d k) k' = dict_get d k'.
Proof.
  intros Hne. induction d as [|[k0 v0] d IH]; simpl; [reflexivity|].
  destruct (String.eqb k0 k) eqn:Hk; simpl.
  - apply String.eqb_eq in Hk. subst k0.
    apply String.eqb_neq in Hne. now rewrite Hne.
  - now rewrite IH.
Qed.

Lemma dict_remove_set {V} (d : dict V) k v :
  dict_remove (dict_set d k v) k = dict_remove d k.
Proof.
  induction d as [|[k' v'] d IH]; simpl.
  - now rewrite String.eqb_refl.
  - destruct (String.eqb k' k) eqn:Hk; simpl.
    + now rewrite String.eqb_refl.
    + now rewrite Hk, IH.
Qed.

Lemma dict_remove_absent {V} (d : dict V) k :
  dict_get d k = None -> dict_remove d k = d.
Proof.
  induction d as [|[k' v'] d IH]; simpl; [reflexivity|].
  destruct (String.eqb k' k); [discriminate|]. intros H. now rewrite IH.
Qed.

Lemma trim_small (state : store) : List.length state <= 100 -> trim state = state.
Proof.
  intros H. unfold trim. now destruct (Nat.ltb_spec 100 (List.length state)); [lia|].
Qed.

(** X1: a state file that is missing, that cannot be opened ([IOError]),
    or whose text [json.load] rejects with [JSONDecodeError], reads as the
    empty store: every lookup misses, taking a pending task yields nothing
    and writes nothing, and a registration replaces the file by one that
    holds exactly the new record. *)
Theorem unreadable_store_heals E w k ty mo de :
  state_file w = FileAbsent \/ state_file w = FileCorrupt ->
  k <> "" ->
  state_writable E = true ->
  (forall a, lookup_agent w (JStr a) = Ok None) /\
  (forall s, get_and_clear_pending_task E w s = (w, None)) /\
  exists w',
    register_agent E w (JStr k) ty mo de = Ok w' /\
    state_file w' = FileJson [(k, new_info E ty mo de)] /\
    lookup_agent w' (JStr k) = Ok (Some (new_info E ty mo de)).
Proof.
  intros Hfile Hk Hw.
  assert (Hread : _read_state w = []).
  { unfold _read_state. now destruct Hfile as [-> | ->]. }
  split; [|split].
  - intros a. unfold lookup_agent. rewrite Hread. simpl. now destruct (negb _).
  - intros s. unfold get_and_clear_pending_task. now rewrite Hread.
  - unfold register_agent, lookup_agent. rewrite (truthy_str k Hk), Hread. simpl.
    unfold _write_state. rewrite Hw. eexists. split; [reflexivity|]. simpl.
    now rewrite String.eqb_refl.
Qed.

Lemma unreadable_store_heals_witness :
  (forall a, lookup_agent corrupt_world (JStr a) = Ok None) /\
  (forall s, get_and_clear_pending_task sample_env corrupt_world s = (corrupt_world, None)) /\
  exists w',
    register_agent sample_env corrupt_world (JStr "a1") (JStr "Explore") JNull JNull = Ok w' /\
    state_file w' = FileJson [("a1", new_info sample_env (JStr "Explore") JNull JNull)] /\
    lookup_agent w' (JStr "a1")
    = Ok (Some (new_info sample_env (JStr "Explore") JNull JNull)).
Proof.
  apply (unreadable_store_heals sample_env corrupt_world "a1").
  - right. reflexivity.
  - discriminate.
  - reflexivity.
Defined.

(** X2: when the state file cannot be opened for writing, the error is
    swallowed and nothing changes: a registration and a pending task are
    lost, and a pending task that is taken is returned but stays in the
    store, so that the next call returns it again. *)
Theorem unwritable_store_keeps_everything E w :
  state_writable E = false ->
  (forall a ty mo de w', register_agent E w a ty mo de = Ok w' -> w' = w) /\
  (forall s ty mo de, set_pending_task E w s ty mo de = w) /\
  (forall s,
      get_and_clear_pending_task E w s
      = (w, dict_get (_read_state w) (pending_key E s))).
Proof.
  intros Hw. repeat split.
  - intros a ty mo de w'. unfold register_agent, _write_state. rewrite Hw.
    destruct (negb (truthy a)); [now intros [= <-]|].
    destruct a; intros [= <-]; reflexivity.
  - intros s ty mo de. unfold set_pending_task, _write_state. now rewrite Hw.
  - intros s. unfold get_and_clear_pending_task, _write_state. rewrite Hw.
    now destruct (dict_get _ _).
Qed.

Lemma unwritable_store_keeps_everything_witness :
  (forall a ty mo de w',
      register_agent read_only_env pending_world a ty mo de = Ok w' ->
      w' = pending_world) /\
  (forall s ty mo de,
      set_pending_task read_only_env pending_world s ty mo de = pending_world) /\
  (forall s,
      get_and_clear_pending_task read_only_env pending_world s
      = (pending_world,
         dict_get (_read_state pending_world) (pending_key read_only_env s))).
Proof.
  apply unwritable_store_keeps_everything. reflexivity.
Defined.

(** X3: a pending task that is set and then taken comes back with the
    metadata and the time stamp it was set with, and taking it removes
    exactly its entry: the store is what it was before, without any older
    pending task of that session.  A second [set_pending_task] for the
    session replaces the first without adding a record, so only the later
    metadata can be taken, and only once. *)
Theorem pending_set_then_take E1 E2 E3 w s ty1 mo1 de1 ty2 mo2 de2 :
  state_writable E1 = true -> state_writable E2 = true -> state_writable E3 = true ->
  NoDup (keys (_read_state w)) ->
  let w1 := set_pending_task E1 w (JStr s) ty1 mo1 de1 in
  let w2 := set_pending_task E2 w1 (JStr s) ty2 mo2 de2 in
  (exists w',
      get_and_clear_pending_task E3 w1 (JStr s) = (w', Some (new_info E1 ty1 mo1 de1)) /\
      _read_state w' = dict_remove (_read_state w) ("pending_" ++ s)) /\
  (exists w',
      get_and_clear_pending_task E3 w2 (JStr s) = (w', Some (new_info E2 ty2 mo2 de2)) /\
      _read_state w' = dict_remove (_read_state w) ("pending_" ++ s) /\
      get_and_clear_pending_task E3 w' (JStr s) = (w', None)) /\
  record_count w2 = record_count w1.
Proof.
  intros H1 H2 H3 Hnd w1 w2. subst w1 w2.
  unfold set_pending_task, get_and_clear_pending_task, record_count.
  rewrite !pending_key_str, !read_write_state by assumption.
  rewrite !dict_get_set_same. repeat split.
  - eexists. split; [reflexivity|].
    rewrite read_write_state by assumption. apply dict_remove_set.
  - eexists. split; [reflexivity|].
    rewrite !read_write_state by assumption. rewrite !dict_remove_set.
    split; [reflexivity|]. now rewrite dict_get_remove_same.
  - rewrite length_dict_set, dict_get_set_same. reflexivity.
Qed.

Lemma pending_set_then_take_witness :
  let w1 := set_pending_task sample_env pending_world (JStr "s1") (JStr "Plan") JNull JNull in
  let w2 := set_pending_task later_env w1 (JStr "s1") (JStr "Bash") JNull JNull in
  (exists w',
      get_and_clear_pending_task later_env w1 (JStr "s1")
      = (w', Some (new_info sample_env (JStr "Plan") JNull JNull)) /\
      _read_state w' = dict_remove (_read_state pending_world) ("pending_" ++ "s1")) /\
  (exists w',
      get_and_clear_pending_task later_env w2 (JStr "s1")
      = (w', Some (new_info later_env (JStr "Bash") JNull JNull)) /\
      _read_state w' = dict_remove (_read_state pending_world) ("pending_" ++ "s1") /\
      get_and_clear_pending_task later_env w' (JStr "s1") = (w', None)) /\
  record_count w2 = record_count w1.
Proof.
  apply (pending_set_then_take sample_env later_env later_env pending_world "s1").
  - reflexivity.
  - reflexivity.
  - reflexivity.
  - apply distinct_NoDup. reflexivity.
Defined.

Lemma pending_key_str_inj E E' s s' :
  pending_key E (JStr s) = pending_key E' (JStr s') -> s = s'.
Proof. rewrite !pending_key_str. simpl. now intros [= ->]. Qed.

(** X4: the sessions do not share a pending slot: setting or taking the
    pending task of one session leaves the pending task of every other
    session as it was. *)
Theorem pending_tasks_are_per_session E w s s' ty mo de :
  s <> s' ->
  dict_get (_read_state (set_pending_task E w (JStr s) ty mo de)) (pending_key E (JStr s'))
  = dict_get (_read_state w) (pending_key E (JStr s')) /\
  dict_get (_read_state (fst (get_and_clear_pending_task E w (JStr s))))
    (pending_key E (JStr s'))
  = dict_get (_read_state w) (pending_key E (JStr s')).
Proof.
  intros Hne.
  assert (Hkey : pending_key E (JStr s) <> pending_key E (JStr s')).
  { intros H. now apply pending_key_str_inj in H. }
  unfold set_pending_task, get_and_clear_pending_task, _write_state.
  destruct (state_writable E); split; try reflexivity.
  - simpl. now apply dict_get_set_other.
  - destruct (dict_get (_read_state w) (pending_key E (JStr s))); [|reflexivity].
    simpl. now apply dict_get_remove_other.
  - now destruct (dict_get (_read_state w) (pending_key E (JStr s))).
Qed.

Lemma pending_tasks_are_per_session_witness :
  dict_get (_read_state (set_pending_task sample_env pending_world (JStr "s2")
                           (JStr "Plan") JNull JNull))
    (pending_key sample_env (JStr "s1"))
  = dict_get (_read_state pending_world) (pending_key sample_env (JStr "s1")) /\
  dict_get (_read_state (fst (get_and_clear_pending_task sample_env pending_world (JStr "s2"))))
    (pending_key sample_env (JStr "s1"))
  = dict_get (_read_state pending_world) (pending_key sample_env (JStr "s1")).
Proof.
  apply pending_tasks_are_per_session. discriminate.
Defined.

Lemma read_write_state_eq w state e :
  _read_state (emit (set_state_file w (FileJson state)) e) = state.
Proof. reflexivity. Qed.

(** The tracker keeps the keys of the state distinct. *)
Lemma NoDup_keys_register E w k ty mo de w' :
  NoDup (keys (_read_state w)) ->
  register_agent E w (JStr k) ty mo de = Ok w' ->
  NoDup (keys (_read_state w')).
Proof.
  intros Hnd. unfold register_agent, _write_state.
  destruct (negb (truthy (JStr k))); [now intros [= <-]|].
  destruct (state_writable E); intros [= <-]; [|assumption].
  now apply NoDup_keys_trim, NoDup_keys_dict_set.
Qed.

Lemma NoDup_keys_apply_op E w op :
  NoDup (keys (_read_state w)) -> NoDup (keys (_read_state (apply_op E w op))).
Proof.
  intros Hnd. destruct op as [k ty mo de|s ty mo de|s|k]; simpl; [| | |assumption].
  - destruct (register_agent E w (JStr k) ty mo de) as [w'|] eqn:Hreg; [|assumption].
    now apply (NoDup_keys_register _ _ _ _ _ _ _ Hnd Hreg).
  - unfold set_pending_task, _write_state. destruct (state_writable E); [|assumption].
    now apply NoDup_keys_dict_set.
  - unfold get_and_clear_pending_task, _write_state.
    destruct (dict_get _ _); [|assumption]. simpl.
    destruct (state_writable E); [|assumption]. now apply NoDup_keys_dict_remove.
Qed.

Lemma NoDup_keys_apply_ops E ops : forall w,
  NoDup (keys (_read_state w)) -> NoDup (keys (_read_state (apply_ops E w ops))).
Proof.
  unfold apply_ops. induction ops as [|op ops IH]; intros w Hnd; simpl; [assumption|].
  now apply IH, NoDup_keys_apply_op.
Qed.

(** X5: when a registration drops records, it holds 100 records
    afterwards, and every record it dropped was registered no later than
    every record it kept, the new one included. *)
Theorem register_drops_the_oldest E w k ty mo de w' a ia b ib :
  k <> "" ->
  state_writable E = true ->
  NoDup (keys (_read_state w)) ->
  register_agent E w (JStr k) ty mo de = Ok w' ->
  dict_get (dict_set (_read_state w) k (new_info E ty mo de)) a = Some ia ->
  dict_get (_read_state w') a = None ->
  dict_get (_read_state w') b = Some ib ->
  String.leb (registered_at ia) (registered_at ib) = true /\ record_count w' = 100.
Proof.
  intros Hk Hw Hnd Hreg Ha Hgone Hb.
  unfold register_agent in Hreg. rewrite (truthy_str k Hk) in Hreg. simpl in Hreg.
  injection Hreg as <-. unfold record_count. rewrite read_write_state in * by assumption.
  pose proof (NoDup_keys_dict_set (_read_state w) k (new_info E ty mo de) Hnd) as Hnd'.
  apply (trim_evicts_oldest _ (a, ia) (b, ib)); try assumption.
  - now apply dict_get_some_in.
  - intros Hin. apply in_dict_get in Hin; [congruence | now apply NoDup_keys_trim].
  - now apply dict_get_some_in.
Qed.

Lemma register_drops_the_oldest_witness :
  String.leb (registered_at (new_info later_env (JStr "Explore") JNull JNull))
    (registered_at (new_info later_env (JStr "Explore") JNull JNull)) = true /\
  record_count
    (apply_op later_env full_world (OpRegister "late" (JStr "Plan") JNull JNull)) = 100.
Proof.
  apply (register_drops_the_oldest later_env full_world "late" (JStr "Plan") JNull JNull
           _ (agent_name 0) _ (agent_name 1)).
  - discriminate.
  - reflexivity.
  - apply distinct_NoDup. vm_compute. reflexivity.
  - vm_compute. reflexivity.
  - vm_compute. reflexivity.
  - vm_compute. reflexivity.
  - vm_compute. reflexivity.
Defined.

Lemma count_after_op E w op :
  NoDup (keys (_read_state w)) ->
  record_count (apply_op E w op)
  <= Nat.max 100 (record_count w)
     + match op with OpSetPending _ _ _ _ => 1 | _ => 0 end.
Proof.
  intros Hnd. unfold record_count.
  destruct op as [k ty mo de|s ty mo de|s|k]; cbn [apply_op]; [| | |lia].
  - unfold register_agent, _write_state.
    destruct (negb (truthy (JStr k))); [lia|].
    destruct (state_writable E); [|lia].
    rewrite read_write_state_eq.
    rewrite trim_length by now apply NoDup_keys_dict_set. lia.
  - unfold set_pending_task, _write_state. destruct (state_writable E); [|lia].
    rewrite read_write_state_eq, length_dict_set. destruct (dict_get _ _); lia.
  - unfold get_and_clear_pending_task, _write_state.
    destruct (dict_get _ _) as [info|] eqn:Hget; cbn [fst]; [|lia].
    destruct (state_writable E); [|lia].
    rewrite read_write_state_eq.
    pose proof (length_dict_remove _ _ _ Hget). lia.
Qed.

(** X6: however the operations of the tracker follow one another, the
    store holds at most 100 records, or as many as it held at the start,
    plus one for every [set_pending_task]: only that operation can take
    the store beyond the bound. *)
Theorem store_growth_is_bounded E ops : forall w,
  NoDup (keys (_read_state w)) ->
  record_count (apply_ops E w ops)
  <= Nat.max 100 (record_count w) + count_set_pending ops.
Proof.
  unfold apply_ops, count_set_pending.
  induction ops as [|op ops IH]; intros w Hnd; cbn [fold_left filter List.length];
    [unfold record_count; lia|].
  pose proof (count_after_op E w op Hnd) as Hop.
  pose proof (IH _ (NoDup_keys_apply_op E w op Hnd)) as Hrest.
  destruct op; cbn [filter List.length] in *; lia.
Qed.

Lemma store_growth_is_bounded_witness :
  record_count
    (apply_ops sample_env empty_world
       (register_many 100 ++ [OpSetPending "s1" (JStr "Explore") JNull JNull])%list)
  <= Nat.max 100 (record_count empty_world)
     + count_set_pending
         (register_many 100 ++ [OpSetPending "s1" (JStr "Explore") JNull JNull])%list.
Proof.
  apply store_growth_is_bounded. simpl. constructor.
Defined.

(** * Further properties of the extractors *)

Lemma join_lines_concat ss : join_lines (map JStr ss) = Ok (String.concat newline ss).
Proof.
  induction ss as [|s ss IH]; [reflexivity|].
  destruct ss as [|s' ss]; [reflexivity|].
  change (map JStr (s :: s' :: ss)) with (JStr s :: map JStr (s' :: ss)).
  cbn [join_lines]. cbn [map] in *. rewrite IH. reflexivity.
Qed.

Lemma carries_texts blocks ss :
  carries blocks ss -> flat_map text_of_block blocks = map JStr ss.
Proof.
  induction 1 as [|o s blocks ss Hty Htext _ IH|block blocks ss Hother _ IH];
    cbn [flat_map map]; [reflexivity| |].
  - rewrite IH. unfold text_of_block, field, field_default. rewrite Hty, Htext.
    reflexivity.
  - rewrite IH. destruct block as [| | | | |o]; try reflexivity.
    unfold text_of_block. now rewrite (Hother o eq_refl).
Qed.

(** X7: [extract_task_response] returns the texts of the text blocks of the
    response's content, in order and joined by newlines; blocks of any
    other kind are passed over, and without a text block the result is the
    empty string. *)
Theorem extract_joins_text_blocks o blocks ss :
  dict_get o "content" = Some (JArr blocks) ->
  carries blocks ss ->
  extract_task_response (JObj o) = Ok (String.concat newline ss).
Proof.
  intros Hcontent Hcarries. unfold extract_task_response.
  assert (Htruthy : truthy (JObj o) = true) by (destruct o; [discriminate | reflexivity]).
  rewrite Htruthy. cbn [negb]. unfold py_get_default. rewrite Hcontent.
  cbn [bind collect_texts]. rewrite (carries_texts _ _ Hcarries).
  destruct ss as [|s ss]; [reflexivity|]. apply join_lines_concat.
Qed.

Lemma extract_joins_text_blocks_witness :
  extract_task_response
    (JObj [("agentId", JStr "a1");
           ("content", JArr [JObj [("type", JStr "text"); ("text", JStr "done")];
                             JStr "x";
                             JObj [("type", JStr "image")];
                             JObj [("type", JStr "text"); ("text", JStr "bye")]])])
  = Ok (String.concat newline ["done"; "bye"]).
Proof.
  apply (extract_joins_text_blocks _
           [JObj [("type", JStr "text"); ("text", JStr "done")];
            JStr "x";
            JObj [("type", JStr "image")];
            JObj [("type", JStr "text"); ("text", JStr "bye")]]).
  - reflexivity.
  - apply carries_text; [reflexivity | reflexivity |].
    apply carries_other; [discriminate|].
    apply carries_other; [now intros o [= <-]|].
    apply carries_text; [reflexivity | reflexivity |].
    apply carries_nil.
Defined.

(** X8: transcript lines that [json.loads] rejects with [JSONDecodeError]
    (text that is not JSON, empty lines) never change what
    [get_last_assistant_message] finds: the scan of the lines is the scan
    of the lines without them.  A line on which reading or decoding raises
    anything else is not such a line: it ends the scan. *)
Theorem non_json_lines_are_skipped lines acc :
  scan_transcript lines acc
  = scan_transcript (filter (fun line => negb (not_json line)) lines) acc /\
  forall e rest, scan_transcript (LineBroken e :: rest) acc = acc.
Proof.
  split; [|reflexivity].
  revert acc. induction lines as [|[entry| |e] lines IH]; intros acc; simpl;
    [reflexivity| |apply IH|reflexivity].
  destruct (assistant_text entry) as [[s|]|e]; auto.
Qed.

Lemma well_formed_line_ok entry :
  well_formed_line (LineJson entry) = true -> exists r, assistant_text entry = Ok r.
Proof.
  destruct entry as [| | | | |o]; try discriminate. simpl.
  unfold assistant_text. cbn [py_get bind]. fold (field o "type").
  destruct (is_str (field o "type") "assistant"); [|eauto].
  unfold py_get_default at 1.
  destruct (dict_get o "message") as [[| | | | |m]|]; try discriminate; cbn [bind].
  - unfold absent_or, py_get_default.
    destruct (dict_get m "content") as [c|]; cbn [bind]; [|simpl; eauto].
    destruct c as [| | | |blocks|]; try discriminate. cbn [well_formed_content collect_texts bind].
    intros Hblocks.
    assert (Hstr : forallb is_string (flat_map text_of_block blocks) = true).
    { induction blocks as [|b blocks IH]; [reflexivity|].
      simpl in Hblocks. apply andb_true_iff in Hblocks as [Hb Hrest].
      cbn [flat_map]. rewrite forallb_app, (text_of_block_strings b Hb). now apply IH. }
    destruct (flat_map text_of_block blocks) eqn:Htexts; [eauto|].
    destruct (join_lines_ok _ Hstr) as [s ->]. simpl. eauto.
  - intros _. simpl. eauto.
Qed.

Lemma scan_transcript_last lines entry s : forall acc,
  forallb well_formed_line lines = true ->
  assistant_text entry = Ok (Some s) ->
  scan_transcript (lines ++ [LineJson entry])%list acc = s.
Proof.
  induction lines as [|line lines IH]; intros acc Hwf Hentry.
  - simpl. now rewrite Hentry.
  - cbn [forallb] in Hwf. apply andb_true_iff in Hwf as [Hline Hrest].
    destruct line as [e| |x]; cbn [app scan_transcript];
      [|now apply IH|discriminate].
    destruct (well_formed_line_ok e Hline) as [[r|] ->]; now apply IH.
Qed.

(** X9: when the last line of a readable transcript is an assistant entry
    with text blocks, and the lines before it are well formed (not JSON at
    all, or objects of the expected shape), [get_last_assistant_message]
    returns the texts of that entry joined by newlines, whatever earlier
    assistant entries said. *)
Theorem last_assistant_message_wins E path lines o m blocks s ss :
  path <> "" ->
  transcript_lines E path = Some (lines ++ [LineJson (JObj o)])%list ->
  forallb well_formed_line lines = true ->
  dict_get o "type" = Some (JStr "assistant") ->
  dict_get o "message" = Some (JObj m) ->
  dict_get m "content" = Some (JArr blocks) ->
  carries blocks (s :: ss) ->
  get_last_assistant_message E (JStr path) = Ok (String.concat newline (s :: ss)).
Proof.
  intros Hpath Hlines Hwf Hty Hmsg Hcontent Hcarries.
  unfold get_last_assistant_message. rewrite (truthy_str path Hpath), Hlines.
  cbn [negb]. f_equal. apply scan_transcript_last; [assumption|].
  unfold assistant_text, py_get, py_get_default. rewrite Hty.
  cbn [bind]. change (is_str (JStr "assistant") "assistant") with true. cbv iota.
  rewrite Hmsg. cbn [bind]. rewrite Hcontent. cbn [bind collect_texts].
  rewrite (carries_texts _ _ Hcarries).
  change (map JStr (s :: ss)) with (JStr s :: map JStr ss).
  change (JStr s :: map JStr ss) with (map JStr (s :: ss)).
  rewrite join_lines_concat. reflexivity.
Qed.

Lemma last_assistant_message_wins_witness :
  get_last_assistant_message transcript_env (JStr "/tmp/t.jsonl")
  = Ok (String.concat newline ["done"; "bye"]).
Proof.
  apply (last_assistant_message_wins transcript_env "/tmp/t.jsonl"
           [LineJson (JObj [("type", JStr "assistant");
                        ("message", JObj [("content",
                           JArr [JObj [("type", JStr "text"); ("text", JStr "first")]])])]);
            LineNotJson;
            LineJson (JObj [("type", JStr "user")])]
           [("type", JStr "assistant");
            ("message", JObj [("content",
               JArr [JObj [("type", JStr "text"); ("text", JStr "done")];
                     JObj [("type", JStr "tool_use")];
                     JObj [("type", JStr "text"); ("text", JStr "bye")]])])]
           [("content",
               JArr [JObj [("type", JStr "text"); ("text", JStr "done")];
                     JObj [("type", JStr "tool_use")];
                     JObj [("type", JStr "text"); ("text", JStr "bye")]])]
           [JObj [("type", JStr "text"); ("text", JStr "done")];
            JObj [("type", JStr "tool_use")];
            JObj [("type", JStr "text"); ("text", JStr "bye")]]).
  - discriminate.
  - reflexivity.
  - reflexivity.
  - reflexivity.
  - reflexivity.
  - reflexivity.
  - apply carries_text; [reflexivity | reflexivity |].
    apply carries_other; [now intros o [= <-]|].
    apply carries_text; [reflexivity | reflexivity |].
    apply carries_nil.
Defined.

Lemma scan_transcript_stops pre entry rest e : forall acc,
  assistant_text entry = Raise e ->
  scan_transcript (pre ++ LineJson entry :: rest)%list acc = scan_transcript pre acc.
Proof.
  induction pre as [|line pre IH]; intros acc Hraise; cbn [app scan_transcript].
  - now rewrite Hraise.
  - destruct line as [e'| |x]; [|now apply IH|reflexivity].
    destruct (assistant_text e') as [[s|]|x]; auto.
Qed.

(** X10: a transcript line that decodes to something other than an object
    (a list, a string, a number, null) ends the scan: what
    [get_last_assistant_message] returns is what the lines before it give,
    and every later line, assistant entries included, is ignored. *)
Theorem transcript_scan_stops_at_non_object E path pre entry rest :
  path <> "" ->
  transcript_lines E path = Some (pre ++ LineJson entry :: rest)%list ->
  (forall o, entry <> JObj o) ->
  get_last_assistant_message E (JStr path) = Ok (scan_transcript pre "").
Proof.
  intros Hpath Hlines Hentry.
  unfold get_last_assistant_message. rewrite (truthy_str path Hpath), Hlines.
  cbn [negb]. f_equal. apply scan_transcript_stops with (e := AttributeError).
  destruct entry; try reflexivity. now destruct (Hentry o).
Qed.

Lemma transcript_scan_stops_at_non_object_witness :
  get_last_assistant_message transcript_env (JStr "/tmp/u.jsonl")
  = Ok (scan_transcript
          [LineJson (JObj [("type", JStr "assistant");
                       ("message", JObj [("content",
                          JArr [JObj [("type", JStr "text"); ("text", JStr "first")]])])])]
          "").
Proof.
  apply (transcript_scan_stops_at_non_object transcript_env "/tmp/u.jsonl" _ (JArr [JNum 1])
           [LineJson (JObj [("type", JStr "assistant");
                        ("message", JObj [("content",
                           JArr [JObj [("type", JStr "text"); ("text", JStr "late")]])])])]).
  - discriminate.
  - reflexivity.
  - discriminate.
Defined.

(** * Further properties of [main] *)

Lemma preserves_ret {X A} (part : world -> X) (a : A) : preserves part (ret a).
Proof. now intros w. Qed.

Lemma preserves_lift {X A} (part : world -> X) (r : result A) : preserves part (lift r).
Proof. now intros w. Qed.

Lemma preserves_bind {X A B} (part : world -> X) (m : M A) (f : A -> M B) :
  preserves part m -> (forall a, preserves part (f a)) -> preserves part (bindM m f).
Proof.
  intros Hm Hf w. unfold bindM. specialize (Hm w).
  destruct (m w) as [w' [a|e]]; simpl in *; [|assumption].
  now rewrite Hf.
Qed.

Lemma latest_write_state E w state : latest (_write_state E w state) = latest w.
Proof. unfold _write_state. now destruct (state_writable E). Qed.

Lemma preserves_latest_register E agent_id ty mo de :
  preserves latest (try_world (fun w => register_agent E w agent_id ty mo de)).
Proof.
  intros w. unfold try_world, register_agent.
  destruct (truthy agent_id); simpl; [|reflexivity].
  destruct agent_id; simpl; try reflexivity; apply latest_write_state.
Qed.

Lemma preserves_latest_resolve E session_id agent_id entry :
  preserves latest (resolve_subagent E session_id agent_id entry).
Proof.
  unfold resolve_subagent. apply preserves_bind; [now intros w|].
  intros [info|]; [apply preserves_ret|].
  apply preserves_bind.
  - intros w. unfold get_and_clear_pending_task.
    destruct (dict_get _ _); simpl; [apply latest_write_state | reflexivity].
  - intros [p|]; [|apply preserves_ret].
    apply preserves_bind; [apply preserves_latest_register | intros; apply preserves_ret].
Qed.

Ltac preserves_latest_step :=
  first
    [ apply preserves_ret
    | apply preserves_lift
    | apply preserves_latest_register
    | apply preserves_latest_resolve
    | (intros ?; apply latest_write_state)
    | apply preserves_bind; [|intros ?]
    | match goal with
      | |- preserves _ (if ?b then _ else _) => destruct b
      | |- preserves _ (let x := _ in _) => cbv zeta
      end ].

Lemma preserves_latest_build_entry E input_data :
  preserves latest (build_entry E input_data).
Proof. unfold build_entry. repeat preserves_latest_step. Qed.

(** X11: when the process ends with an exception, it has appended nothing
    to any session log and has not moved the [latest] link. *)
Theorem exception_means_nothing_logged E w stdin w' e :
  main E w stdin = (w', Uncaught e) ->
  session_logs w' = session_logs w /\ latest w' = latest w.
Proof.
  unfold main. destruct (run E stdin w) as [w2 [c|x]] eqn:Hrun; [discriminate|].
  intros [= -> ->]. unfold run, bindM in Hrun.
  assert (Hmk : forall v, (exists u, try_world mkdir v = (u, Ok tt) /\
                                     session_logs u = session_logs v /\ latest u = latest v)
                          \/ (exists x, try_world mkdir v = (v, Raise x))).
  { intros v. unfold try_world, mkdir.
    destruct (log_dir v); [left | left | right]; eexists; repeat split. }
  destruct (Hmk w) as [(wa & Ha & Hla & Hta)|[x Ha]]; rewrite Ha in Hrun;
    [|now injection Hrun as <- _].
  destruct (Hmk wa) as [(wb & Hb & Hlb & Htb)|[x Hb]]; rewrite Hb in Hrun;
    [|injection Hrun as <- _; split; congruence].
  destruct (json_load stdin) as [[| | | | |input_data]|[]];
    try (injection Hrun as <- _; split; congruence).
  unfold record_event, bindM in Hrun.
  pose proof (keeps_logs_build_entry E input_data wb) as Hlogs.
  pose proof (preserves_latest_build_entry E input_data wb) as Hlatest.
  destruct (build_entry E input_data wb) as [w1 [entry|x]]; simpl in Hlogs, Hlatest;
    [|injection Hrun as <- _; split; congruence].
  unfold append_log in Hrun.
  destruct (appendable E (session_file E input_data)).
  - unfold relink in Hrun. destruct (link_updatable E); discriminate.
  - injection Hrun as <- _. split; congruence.
Qed.

Lemma exception_means_nothing_logged_witness :
  session_logs (fst (main full_disk_env pending_world
                       (StdinJson (JObj (subagent_stop_event "a1b2c3")))))
  = session_logs pending_world /\
  latest (fst (main full_disk_env pending_world
                 (StdinJson (JObj (subagent_stop_event "a1b2c3")))))
  = latest pending_world.
Proof.
  apply (exception_means_nothing_logged full_disk_env pending_world
           (StdinJson (JObj (subagent_stop_event "a1b2c3"))) _ OSError).
  reflexivity.
Defined.

Lemma mkdir_ok_latest w w1 u : try_world mkdir w = (w1, Ok u) -> latest w1 = latest w.
Proof.
  unfold try_world, mkdir. destruct (log_dir w); intros [= <-]; reflexivity.
Qed.

Lemma lines_of_other w w' name name' lines :
  session_logs w' = dict_set (session_logs w) name lines ->
  name <> name' -> lines_of w' name' = lines_of w name'.
Proof. intros Hlogs Hne. unfold lines_of. now rewrite Hlogs, dict_get_set_other. Qed.

(** X12: when [main] exits on an input that is a dict, the exit code is 0,
    one line has been appended to the log of the event's session and to no
    other log, and [latest] points to that log if the link could be
    updated and where it pointed before if not. *)
Theorem exit_appends_one_line E w input_data w' code :
  main E w (StdinJson (JObj input_data)) = (w', Exit code) ->
  code = 0%Z /\
  (exists line,
      lines_of w' (session_file E input_data)
      = (lines_of w (session_file E input_data) ++ [line])%list) /\
  (forall name, name <> session_file E input_data -> lines_of w' name = lines_of w name) /\
  latest w' = if link_updatable E then Some (session_file E input_data) else latest w.
Proof.
  unfold main. destruct (run E _ w) as [w2 [c|e]] eqn:Hrun; [|discriminate].
  intros [= -> ->]. unfold run in Hrun. simpl in Hrun.
  apply bindM_ok_inv in Hrun as (wa & [] & Hmk1 & Hrun).
  apply bindM_ok_inv in Hrun as (wb & [] & Hmk2 & Hrun).
  apply bindM_ok_inv in Hrun as (wc & [] & Hrec & Hfin).
  injection Hfin as -> <-.
  pose proof (mkdir_ok_latest _ _ _ Hmk1) as Ht1.
  pose proof (mkdir_ok_latest _ _ _ Hmk2) as Ht2.
  apply mkdir_ok_inv in Hmk1 as (Hl1 & _ & _).
  apply mkdir_ok_inv in Hmk2 as (Hl2 & _ & _).
  unfold record_event in Hrec.
  apply bindM_ok_inv in Hrec as (w1 & entry & Hbuild & Hrec).
  apply bindM_ok_inv in Hrec as (wd & [] & Happ & Hrec).
  apply bindM_ok_inv in Hrec as (we & [] & Hlink & Hret).
  injection Hret as ->.
  pose proof (keeps_logs_build_entry E input_data wb) as Hkeep.
  pose proof (preserves_latest_build_entry E input_data wb) as Hlatest.
  rewrite Hbuild in Hkeep, Hlatest. simpl in Hkeep, Hlatest.
  unfold append_log in Happ.
  destruct (appendable E (session_file E input_data)); [|discriminate].
  injection Happ as <-. unfold relink in Hlink.
  assert (Hlogs : session_logs w'
                  = dict_set (session_logs w) (session_file E input_data)
                      (lines_of w (session_file E input_data) ++ [remove_none entry])%list).
  { unfold lines_of. rewrite <- Hl1, <- Hl2, <- Hkeep.
    destruct (link_updatable E); injection Hlink as <-; reflexivity. }
  split; [reflexivity|]. split; [|split].
  - exists (remove_none entry). unfold lines_of at 1. now rewrite Hlogs, dict_get_set_same.
  - intros name Hne. apply (lines_of_other _ _ _ _ _ Hlogs). congruence.
  - destruct (link_updatable E); injection Hlink as <-; simpl; congruence.
Qed.

Lemma exit_appends_one_line_witness :
  0%Z = 0%Z /\
  (exists line,
      lines_of (fst (main sample_env fresh_world (StdinJson (JObj session_start_event))))
        (session_file sample_env session_start_event)
      = (lines_of fresh_world (session_file sample_env session_start_event) ++ [line])%list) /\
  (forall name,
      name <> session_file sample_env session_start_event ->
      lines_of (fst (main sample_env fresh_world (StdinJson (JObj session_start_event)))) name
      = lines_of fresh_world name) /\
  latest (fst (main sample_env fresh_world (StdinJson (JObj session_start_event))))
  = if link_updatable sample_env
    then Some (session_file sample_env session_start_event)
    else latest fresh_world.
Proof.
  apply (exit_appends_one_line sample_env fresh_world session_start_event). reflexivity.
Defined.

Ltac preserves_pure_step :=
  first
    [ apply preserves_ret
    | apply preserves_lift
    | apply preserves_bind; [|intros ?]
    | match goal with
      | |- preserves _ (if ?b then _ else _) => destruct b
      end ].

(** Without a [Task] start or result and without a [SubagentStop], the
    entry is built without the tracker. *)
Lemma preserves_state_build_entry E input_data :
  is_str (field_default input_data "hook_event_name" (JStr "unknown")) "SubagentStop" = false ->
  is_str (field input_data "tool_name") "Task" = false \/
  (is_str (field_default input_data "hook_event_name" (JStr "unknown")) "PreToolUse" = false /\
   is_str (field_default input_data "hook_event_name" (JStr "unknown")) "PostToolUse" = false) ->
  preserves state_file (build_entry E input_data).
Proof.
  intros Hstop Htask. unfold build_entry. cbv zeta. rewrite Hstop.
  assert (Hpre : truthy (tool_input_of input_data)
                 && is_str (field input_data "tool_name") "Task"
                 && is_str (field_default input_data "hook_event_name" (JStr "unknown"))
                      "PreToolUse" = false).
  { destruct Htask as [-> | [-> _]]; [now rewrite andb_false_r | apply andb_false_r]. }
  rewrite Hpre.
  destruct Htask as [Htool | [_ Hpost]].
  - rewrite Htool. cbn [andb]. repeat preserves_pure_step.
  - rewrite Hpost. repeat preserves_pure_step.
Qed.

(** X13: an event that is not a [SubagentStop], and is not the start or the
    result of a [Task], leaves the state file as it is, however the
    process ends. *)
Theorem other_events_leave_the_store E w input_data :
  is_str (field_default input_data "hook_event_name" (JStr "unknown")) "SubagentStop" = false ->
  is_str (field input_data "tool_name") "Task" = false \/
  (is_str (field_default input_data "hook_event_name" (JStr "unknown")) "PreToolUse" = false /\
   is_str (field_default input_data "hook_event_name" (JStr "unknown")) "PostToolUse" = false) ->
  state_file (fst (main E w (StdinJson (JObj input_data)))) = state_file w.
Proof.
  intros Hstop Htask.
  assert (Hrun : preserves state_file (run E (StdinJson (JObj input_data)))).
  { unfold run. simpl json_load. cbv iota.
    assert (Hmk : preserves state_file (try_world mkdir)).
    { intros v. unfold try_world, mkdir. now destruct (log_dir v). }
    apply preserves_bind; [exact Hmk | intros _].
    apply preserves_bind; [exact Hmk | intros _].
    apply preserves_bind; [|intros; apply preserves_ret].
    unfold record_event.
    apply preserves_bind; [now apply preserves_state_build_entry | intros entry].
    apply preserves_bind.
    - intros v. unfold append_log. now destruct (appendable E _).
    - intros _. apply preserves_bind; [|intros; apply preserves_ret].
      intros v. unfold relink. now destruct (link_updatable E). }
  specialize (Hrun w). unfold main.
  now destruct (run E (StdinJson (JObj input_data)) w) as [w2 [c|e]].
Qed.

Lemma other_events_leave_the_store_witness :
  state_file (fst (main sample_env pending_world (StdinJson (JObj session_start_event))))
  = state_file pending_world.
Proof.
  apply (other_events_leave_the_store sample_env pending_world session_start_event).
  - reflexivity.
  - left. reflexivity.
Defined.



Lemma resolve_subagent_known E w session_id agent_id info entry :
  agent_id <> "" ->
  dict_get (_read_state w) agent_id = Some info ->
  resolve_subagent E session_id (JStr agent_id) entry w
  = (w, Ok (with_metadata entry info)).
Proof.
  intros Hid Hget. unfold resolve_subagent, bindM, lookup_agent.
  rewrite (truthy_str _ Hid). cbn [negb]. now rewrite Hget.
Qed.

(** X15: a [SubagentStop] for an agent that is registered takes its
    metadata from the agent's record: the state file is left as it is, so
    a pending task of the session stays available. *)
Theorem known_agent_is_looked_up E w input_data I info :
  well_formed input_data = true ->
  dict_get input_data "hook_event_name" = Some (JStr "SubagentStop") ->
  dict_get input_data "agent_id" = Some (JStr I) ->
  I <> "" ->
  log_dir w <> DirBlocked ->
  appendable E (session_file E input_data) = true ->
  dict_get (_read_state w) I = Some info ->
  exists w' entry,
    main E w (StdinJson (JObj input_data)) = (w', Exit 0) /\
    lines_of w' (session_file E input_data)
    = (lines_of w (session_file E input_data) ++ [remove_none entry])%list /\
    dict_get entry "subagent_type" = Some (subagent_type info) /\
    dict_get entry "subagent_model" = Some (model info) /\
    dict_get entry "subagent_description" = Some (description info) /\
    state_file w' = state_file w.
Proof.
  intros Hwf Hev Haid HI Hdir Happ Hknown.
  destruct (main_exits E w input_data Hwf Hdir Happ) as [w' Hmain].
  destruct (main_exit_inv _ _ _ _ _ Hmain)
    as (w0 & w1 & entry & _ & Hs0 & Hbuild & Hs1 & Hlines).
  apply build_entry_subagent_stop in Hbuild as [entry3 Hresolve];
    [|unfold field_default; now rewrite Hev].
  unfold field in Hresolve. rewrite Haid in Hresolve.
  rewrite (resolve_subagent_known E w0 _ I info) in Hresolve;
    [|assumption | now rewrite (read_state_eq _ _ Hs0)].
  injection Hresolve as <- <-.
  destruct (with_metadata_get entry3 info) as (Hty & Hmo & Hde).
  exists w', (with_metadata entry3 info). repeat split; try assumption. congruence.
Qed.

Lemma known_agent_is_looked_up_witness :
  exists w' entry,
    main later_env registered_world (StdinJson (JObj (subagent_stop_event "a1b2c3")))
    = (w', Exit 0) /\
    lines_of w' "hooks-s1.jsonl"
    = (lines_of registered_world "hooks-s1.jsonl" ++ [remove_none entry])%list /\
    dict_get entry "subagent_type" = Some (JStr "Explore") /\
    dict_get entry "subagent_model" = Some (JStr "haiku") /\
    dict_get entry "subagent_description" = Some (JStr "find the parser") /\
    state_file w' = state_file registered_world.
Proof.
  apply (known_agent_is_looked_up later_env registered_world
           (subagent_stop_event "a1b2c3") "a1b2c3" explore_info).
  - reflexivity.
  - reflexivity.
  - reflexivity.
  - discriminate.
  - discriminate.
  - reflexivity.
  - reflexivity.
Defined.

Lemma tool_input_of_nonempty input_data kv o :
  dict_get input_data "tool_input" = Some (JObj (kv :: o)) ->
  tool_input_of input_data = JObj (kv :: o).
Proof. intros H. unfold tool_input_of, field. now rewrite H. Qed.

(** The start of a [Task]: the entry is built and the pending task set. *)
Lemma build_entry_task_start E input_data kv o w0 :
  field_default input_data "hook_event_name" (JStr "unknown") = JStr "PreToolUse" ->
  field input_data "tool_name" = JStr "Task" ->
  tool_input_of input_data = JObj (kv :: o) ->
  fst (build_entry E input_data w0)
  = set_pending_task E w0 (field_default input_data "session_id" (JStr "unknown"))
      (field (kv :: o) "subagent_type") (field (kv :: o) "model")
      (field (kv :: o) "description").
Proof.
  intros Hev Htool Hti. unfold build_entry. cbv zeta. rewrite Hev, Htool, Hti.
  unfold flatten_tool. cbn [truthy negb].
  change (is_str (JStr "Task") "Task") with true. cbv iota.
  match goal with
  | |- context [copy_fields ?ti ?pairs ?e] =>
      destruct (copy_fields_ok (kv :: o) pairs e) as [e1 He1]; rewrite He1
  end.
  reflexivity.
Qed.

Lemma build_entry_task_start_empty E input_data w0 :
  field_default input_data "hook_event_name" (JStr "unknown") = JStr "PreToolUse" ->
  tool_input_of input_data = JObj [] ->
  fst (build_entry E input_data w0) = w0.
Proof.
  intros Hev Hti. unfold build_entry. cbv zeta. rewrite Hev, Hti. reflexivity.
Qed.

(** X16: the start of a [Task] ([PreToolUse]) whose input is not empty
    stores the type, model and description of the input as the pending
    task of the session, stamped with the current time, and leaves every
    other record of the store as it was; with an empty input nothing is
    stored. *)
Theorem task_start_sets_pending E w input_data S o :
  well_formed input_data = true ->
  dict_get input_data "session_id" = Some (JStr S) ->
  dict_get input_data "hook_event_name" = Some (JStr "PreToolUse") ->
  dict_get input_data "tool_name" = Some (JStr "Task") ->
  dict_get input_data "tool_input" = Some (JObj o) ->
  log_dir w <> DirBlocked ->
  appendable E (session_file E input_data) = true ->
  state_writable E = true ->
  exists w',
    main E w (StdinJson (JObj input_data)) = (w', Exit 0) /\
    match o with
    | [] => state_file w' = state_file w
    | _ =>
        dict_get (_read_state w') ("pending_" ++ S)
        = Some (new_info E (field o "subagent_type") (field o "model")
                  (field o "description")) /\
        forall k, k <> "pending_" ++ S ->
                  dict_get (_read_state w') k = dict_get (_read_state w) k
    end.
Proof.
  intros Hwf Hsid Hev Htool Hti Hdir Happ Hw.
  destruct (main_exits E w input_data Hwf Hdir Happ) as [w' Hmain].
  destruct (main_exit_inv _ _ _ _ _ Hmain)
    as (w0 & w1 & entry & _ & Hs0 & Hbuild & Hs1 & _).
  exists w'. split; [assumption|].
  assert (Hev' : field_default input_data "hook_event_name" (JStr "unknown")
                 = JStr "PreToolUse") by (unfold field_default; now rewrite Hev).
  destruct o as [|kv o].
  - pose proof (build_entry_task_start_empty E input_data w0 Hev') as Hfst.
    rewrite Hbuild in Hfst. simpl in Hfst.
    rewrite Hs1, Hfst; [assumption|]. unfold tool_input_of, field. now rewrite Hti.
  - pose proof (build_entry_task_start E input_data kv o w0 Hev') as Hfst.
    rewrite Hbuild in Hfst. simpl in Hfst.
    rewrite (read_state_eq _ _ Hs1), Hfst;
      [|unfold field; now rewrite Htool | now apply tool_input_of_nonempty].
    unfold set_pending_task, field_default. rewrite Hsid, pending_key_str.
    rewrite read_write_state by assumption. rewrite (read_state_eq _ _ Hs0).
    split; [apply dict_get_set_same | intros k Hk; now apply dict_get_set_other].
Qed.

Lemma task_start_sets_pending_witness :
  exists w',
    main sample_env empty_world (StdinJson (JObj task_start_event)) = (w', Exit 0) /\
    (dict_get (_read_state w') ("pending_" ++ "s1")
     = Some (new_info sample_env (JStr "Plan") JNull (JStr "plan it")) /\
     forall k, k <> "pending_" ++ "s1" ->
               dict_get (_read_state w') k = dict_get (_read_state empty_world) k).
Proof.
  apply (task_start_sets_pending sample_env empty_world task_start_event "s1"
           [("subagent_type", JStr "Plan"); ("description", JStr "plan it")]).
  - reflexivity.
  - reflexivity.
  - reflexivity.
  - reflexivity.
  - reflexivity.
  - discriminate.
  - reflexivity.
  - reflexivity.
Defined.




(** ** Responses are cut to 5000 characters *)

Lemma substring_length m : forall s, String.length (substring 0 m s) <= m.
Proof.
  induction m as [|m IH]; intros [|c s]; simpl; try lia.
  specialize (IH s). lia.
Qed.

Lemma response_value_bounded response : bounded_value (response_value response).
Proof.
  unfold response_value. destruct (String.eqb response ""); simpl; [trivial|].
  apply substring_length.
Qed.

Lemma responses_bounded_set entry k v :
  (response_key k = true -> bounded_value v) ->
  responses_bounded entry -> responses_bounded (dict_set entry k v).
Proof.
  intros Hv. unfold responses_bounded.
  induction entry as [|[k' v'] entry IH]; simpl; intros H.
  - constructor; [exact Hv | constructor].
  - inversion H as [|? ? Hhd Htl]; subst.
    destruct (String.eqb k' k); constructor; auto.
Qed.

Lemma responses_bounded_set_other entry k v :
  response_key k = false ->
  responses_bounded entry -> responses_bounded (dict_set entry k v).
Proof. intros Hk. apply responses_bounded_set. congruence. Qed.

Lemma copy_fields_bounded tool_input pairs : forall entry entry',
  forallb (fun p => negb (response_key (fst p))) pairs = true ->
  copy_fields tool_input pairs entry = Ok entry' ->
  responses_bounded entry -> responses_bounded entry'.
Proof.
  induction pairs as [|[k src] pairs IH]; simpl; intros entry entry' Hkeys.
  - now intros [= <-].
  - apply andb_true_iff in Hkeys as [Hk Hrest]. apply negb_true_iff in Hk.
    destruct (py_get tool_input src) as [v|e]; simpl; [|discriminate].
    intros Hcopy Hb. apply (IH _ _ Hrest Hcopy). now apply responses_bounded_set_other.
Qed.

Lemma flatten_tool_bounded tool_name tool_input entry entry' :
  flatten_tool tool_name tool_input entry = Ok entry' ->
  responses_bounded entry -> responses_bounded entry'.
Proof.
  unfold flatten_tool.
  destruct (negb (truthy tool_input)); [now intros [= <-]|].
  repeat match goal with
         | |- (if ?b then copy_fields _ _ _ else _) = _ -> _ =>
             destruct b; [now apply copy_fields_bounded|]
         end.
  destruct (is_str tool_name "Write").
  - destruct (copy_fields tool_input _ entry) as [e1|] eqn:Hcopy; simpl; [|discriminate].
    destruct (py_get_default tool_input "content" (JStr "")) as [c|]; simpl; [|discriminate].
    destruct (content_length c) as [n|]; simpl; [|discriminate].
    intros [= <-] Hb. apply responses_bounded_set_other; [reflexivity|].
    revert Hcopy Hb. now apply copy_fields_bounded.
  - repeat match goal with
           | |- (if ?b then copy_fields _ _ _ else _) = _ -> _ =>
               destruct b; [now apply copy_fields_bounded|]
           end.
    now intros [= <-].
Qed.

Lemma with_metadata_bounded entry info :
  responses_bounded entry -> responses_bounded (with_metadata entry info).
Proof.
  intros H. unfold with_metadata. now repeat apply responses_bounded_set_other.
Qed.

Lemma yields_resolve_bounded E session_id agent_id entry :
  responses_bounded entry ->
  yields (resolve_subagent E session_id agent_id entry) responses_bounded.
Proof.
  intros Hb. unfold resolve_subagent.
  eapply yields_bind; [apply yields_any|]. intros [info|] _.
  - apply yields_ret. now apply with_metadata_bounded.
  - eapply yields_bind; [apply yields_any|]. intros [p|] _.
    + eapply yields_bind; [apply yields_any|]. intros _ _.
      apply yields_ret. now apply with_metadata_bounded.
    + now apply yields_ret.
Qed.

Lemma yields_build_entry_bounded E input_data :
  yields (build_entry E input_data) responses_bounded.
Proof.
  unfold build_entry. cbv zeta.
  apply yields_bind with (P := responses_bounded).
  { apply yields_lift. intros entry1 Hflat.
    apply (flatten_tool_bounded _ _ _ _ Hflat).
    unfold responses_bounded. repeat constructor; simpl; discriminate. }
  intros entry1 Hb1. eapply yields_bind; [apply yields_any|]. intros _ _.
  apply yields_bind with (P := responses_bounded).
  { destruct (is_str _ "PostToolUse"); [|now apply yields_ret].
    destruct (_ && _).
    - eapply yields_bind; [apply yields_any|]. intros agent_id _.
      eapply yields_bind; [apply yields_any|]. intros response _.
      eapply yields_bind; [apply yields_any|]. intros _ _.
      apply yields_ret. apply responses_bounded_set.
      + intros _. apply substring_length.
      + now apply responses_bounded_set_other.
    - apply yields_ret. now apply responses_bounded_set_other. }
  intros entry2 Hb2. apply yields_bind with (P := responses_bounded).
  { destruct (is_str _ "Stop"); [|now apply yields_ret].
    eapply yields_bind; [apply yields_any|]. intros response _.
    apply yields_ret. apply responses_bounded_set_other; [reflexivity|].
    apply responses_bounded_set; [|assumption].
    intros _. apply response_value_bounded. }
  intros entry3 Hb3. apply yields_bind with (P := responses_bounded).
  { destruct (is_str _ "SubagentStop"); [|now apply yields_ret].
    eapply yields_bind; [apply yields_any|]. intros response _.
    apply yields_resolve_bounded.
    apply responses_bounded_set_other; [reflexivity|].
    apply responses_bounded_set_other; [reflexivity|].
    apply responses_bounded_set; [|assumption].
    intros _. apply response_value_bounded. }
  intros entry4 Hb4. apply yields_ret.
  repeat match goal with
         | |- responses_bounded (if ?b then _ else _) => destruct b
         | |- responses_bounded (dict_set _ _ _) =>
             apply responses_bounded_set_other; [reflexivity|]
         end; assumption.
Qed.

(** X18: in the line [main] appends, [subagent_response] and
    [assistant_response], when present, are strings of at most 5000
    characters, however long the response of the subagent or the last
    message of the transcript is. *)
Theorem logged_responses_are_bounded E w input_data w' code :
  main E w (StdinJson (JObj input_data)) = (w', Exit code) ->
  exists line,
    lines_of w' (session_file E input_data)
    = (lines_of w (session_file E input_data) ++ [line])%list /\
    forall k v,
      In (k, v) line ->
      k = "subagent_response" \/ k = "assistant_response" ->
      exists s, v = JStr s /\ String.length s <= 5000.
Proof.
  intros Hmain.
  apply main_exit_inv in Hmain as (w0 & w1 & entry & _ & _ & Hbuild & _ & Hlines).
  exists (remove_none entry). split; [assumption|].
  pose proof (yields_build_entry_bounded E input_data _ _ _ Hbuild) as Hb.
  intros k v Hin Hk. unfold remove_none in Hin. apply filter_In in Hin as [Hin Hv].
  unfold responses_bounded in Hb. rewrite Forall_forall in Hb.
  specialize (Hb _ Hin). simpl in Hb, Hv.
  assert (Hkey : response_key k = true) by (destruct Hk as [-> | ->]; reflexivity).
  specialize (Hb Hkey). destruct v; simpl in *; try contradiction; try discriminate.
  now exists s.
Qed.

Lemma logged_responses_are_bounded_witness :
  exists line,
    lines_of (fst (main later_env pending_world (StdinJson (JObj task_result_event))))
      (session_file later_env task_result_event)
    = (lines_of pending_world (session_file later_env task_result_event) ++ [line])%list /\
    forall k v,
      In (k, v) line ->
      k = "subagent_response" \/ k = "assistant_response" ->
      exists s, v = JStr s /\ String.length s <= 5000.
Proof.
  apply (logged_responses_are_bounded later_env pending_world task_result_event _ 0%Z).
  reflexivity.
Defined.

(** ** The [Stop] event *)

Lemma copy_fields_NoDup tool_input pairs : forall entry entry',
  copy_fields tool_input pairs entry = Ok entry' ->
  NoDup (keys entry) -> NoDup (keys entry').
Proof.
  induction pairs as [|[k src] pairs IH]; simpl; intros entry entry'.
  - now intros [= <-].
  - destruct (py_get tool_input src) as [v|e]; simpl; [|discriminate].
    intros Hcopy Hnd. apply (IH _ _ Hcopy). now apply NoDup_keys_dict_set.
Qed.

Lemma flatten_tool_NoDup tool_name tool_input entry entry' :
  flatten_tool tool_name tool_input entry = Ok entry' ->
  NoDup (keys entry) -> NoDup (keys entry').
Proof.
  unfold flatten_tool.
  destruct (negb (truthy tool_input)); [now intros [= <-]|].
  repeat match goal with
         | |- (if ?b then copy_fields _ _ _ else _) = _ -> _ =>
             destruct b; [apply copy_fields_NoDup|]
         end.
  destruct (is_str tool_name "Write").
  - destruct (copy_fields tool_input _ entry) as [e1|] eqn:Hcopy; simpl; [|discriminate].
    destruct (py_get_default tool_input "content" (JStr "")) as [c|]; simpl; [|discriminate].
    destruct (content_length c) as [n|]; simpl; [|discriminate].
    intros [= <-] Hnd. apply NoDup_keys_dict_set.
    revert Hcopy Hnd. apply copy_fields_NoDup.
  - repeat match goal with
           | |- (if ?b then copy_fields _ _ _ else _) = _ -> _ =>
               destruct b; [apply copy_fields_NoDup|]
           end.
    now intros [= <-].
Qed.

Lemma remove_none_drops_null entry k :
  NoDup (keys entry) -> dict_get entry k = Some JNull ->
  dict_get (remove_none entry) k = None.
Proof.
  induction entry as [|[k' v'] entry IH]; simpl; [discriminate|].
  intros Hnd. inversion Hnd as [|? ? Hnotin Hnd']; subst.
  destruct (String.eqb k' k) eqn:Hk.
  - intros [= ->]. simpl. apply String.eqb_eq in Hk. subst k'.
    apply dict_get_none_iff. intros Hin. apply Hnotin.
    unfold keys in *. apply in_map_iff in Hin as [[k0 v0] [Hfst Hin]].
    apply filter_In in Hin as [Hin _]. apply in_map_iff. now exists (k0, v0).
  - intros Hget. destruct (not_none v'); simpl; [rewrite Hk|]; now apply IH.
Qed.

(** What a [Stop] event puts into the entry. *)
Lemma build_entry_stop E input_data w0 w1 entry :
  field_default input_data "hook_event_name" (JStr "unknown") = JStr "Stop" ->
  build_entry E input_data w0 = (w1, Ok entry) ->
  exists response,
    get_last_assistant_message E (field_default input_data "transcript_path" (JStr ""))
    = Ok response /\
    dict_get entry "assistant_response" = Some (response_value response) /\
    dict_get entry "stop_hook_active" = Some (field input_data "stop_hook_active") /\
    NoDup (keys entry).
Proof.
  intros Hev. unfold build_entry. cbv zeta. rewrite Hev.
  change (is_str (JStr "Stop") "PreToolUse") with false.
  change (is_str (JStr "Stop") "PostToolUse") with false.
  change (is_str (JStr "Stop") "Stop") with true.
  change (is_str (JStr "Stop") "SubagentStop") with false.
  change (is_str (JStr "Stop") "SessionStart") with false.
  change (is_str (JStr "Stop") "SessionEnd") with false.
  change (is_str (JStr "Stop") "Notification") with false.
  change (is_str (JStr "Stop") "PreCompact") with false.
  rewrite !andb_false_r. cbv iota.
  intros Hrun.
  apply bindM_ok_inv in Hrun as (wa & entry1 & H1 & Hrun).
  apply lift_ok_inv in H1 as [-> Hflat].
  apply bindM_ok_inv in Hrun as (wb & [] & H2 & Hrun).
  apply ret_inv in H2 as [-> _].
  apply bindM_ok_inv in Hrun as (wc & entry2 & H3 & Hrun).
  apply ret_inv in H3 as [-> ->].
  apply bindM_ok_inv in Hrun as (wd & entry3 & H4 & Hrun).
  apply bindM_ok_inv in H4 as (we & response & H5 & H4).
  apply lift_ok_inv in H5 as [-> Hresponse].
  apply ret_inv in H4 as [-> ->].
  apply bindM_ok_inv in Hrun as (wf & entry4 & H6 & Hrun).
  apply ret_inv in H6 as [-> ->].
  apply ret_inv in Hrun as [-> ->].
  exists response. split; [assumption|]. split; [|split].
  - rewrite dict_get_set_other by discriminate. apply dict_get_set_same.
  - apply dict_get_set_same.
  - repeat apply NoDup_keys_dict_set.
    apply (flatten_tool_NoDup _ _ _ _ Hflat).
    apply distinct_NoDup. reflexivity.
Qed.

(** X19: a well-formed [Stop] event logs under [assistant_response] the
    last assistant message of its transcript, cut to 5000 characters; when
    the transcript is missing or holds no assistant text, the line has no
    such key.  The event does not touch the state file. *)
Theorem stop_logs_last_message E w input_data :
  well_formed input_data = true ->
  dict_get input_data "hook_event_name" = Some (JStr "Stop") ->
  log_dir w <> DirBlocked ->
  appendable E (session_file E input_data) = true ->
  exists w' line response,
    main E w (StdinJson (JObj input_data)) = (w', Exit 0) /\
    lines_of w' (session_file E input_data)
    = (lines_of w (session_file E input_data) ++ [line])%list /\
    get_last_assistant_message E (field_default input_data "transcript_path" (JStr ""))
    = Ok response /\
    dict_get line "assistant_response"
    = (if String.eqb response "" then None else Some (JStr (truncate response))) /\
    state_file w' = state_file w.
Proof.
  intros Hwf Hev Hdir Happ.
  destruct (main_exits E w input_data Hwf Hdir Happ) as [w' Hmain].
  destruct (main_exit_inv _ _ _ _ _ Hmain)
    as (w0 & w1 & entry & _ & Hs0 & Hbuild & Hs1 & Hlines).
  assert (Hev' : field_default input_data "hook_event_name" (JStr "unknown") = JStr "Stop")
    by (unfold field_default; now rewrite Hev).
  pose proof (preserves_state_build_entry E input_data) as Hstate.
  rewrite Hev' in Hstate. specialize (Hstate eq_refl (or_intror (conj eq_refl eq_refl)) w0).
  rewrite Hbuild in Hstate. simpl in Hstate.
  destruct (build_entry_stop E input_data w0 w1 entry Hev' Hbuild)
    as (response & Hresponse & Hget & _ & Hnd).
  exists w', (remove_none entry), response. repeat split; try assumption; [|congruence].
  unfold response_value in Hget. destruct (String.eqb response "").
  - now apply remove_none_drops_null.
  - apply dict_get_remove_none; [assumption | discriminate].
Qed.

Lemma stop_logs_last_message_witness :
  exists w' line response,
    main transcript_env pending_world (StdinJson (JObj stop_event)) = (w', Exit 0) /\
    lines_of w' (session_file transcript_env stop_event)
    = (lines_of pending_world (session_file transcript_env stop_event) ++ [line])%list /\
    get_last_assistant_message transcript_env
      (field_default stop_event "transcript_path" (JStr "")) = Ok response /\
    dict_get line "assistant_response"
    = (if String.eqb response "" then None else Some (JStr (truncate response))) /\
    state_file w' = state_file pending_world.
Proof.
  apply (stop_logs_last_message transcript_env pending_world stop_event).
  - reflexivity.
  - reflexivity.
  - discriminate.
  - reflexivity.
Defined.

(** ** Completions that find nothing, and results that come first *)

Lemma resolve_subagent_unresolved E w session_id agent_id entry :
  dict_get (_read_state w) agent_id = None ->
  dict_get (_read_state w) (pending_key E session_id) = None ->
  resolve_subagent E session_id (JStr agent_id) entry w = (w, Ok entry).
Proof.
  intros Hagent Hpending. unfold resolve_subagent, bindM, lookup_agent.
  destruct (negb (truthy (JStr agent_id))); rewrite ?Hagent;
    unfold get_and_clear_pending_task; now rewrite Hpending.
Qed.

(** X20: a [SubagentStop] for an agent that is not registered, in a session
    without a pending task, is logged all the same, and the state file is
    left as it is. *)
Theorem unresolved_stop_is_logged E w input_data S I :
  well_formed input_data = true ->
  dict_get input_data "session_id" = Some (JStr S) ->
  dict_get input_data "hook_event_name" = Some (JStr "SubagentStop") ->
  dict_get input_data "agent_id" = Some (JStr I) ->
  log_dir w <> DirBlocked ->
  appendable E (session_file E input_data) = true ->
  dict_get (_read_state w) I = None ->
  dict_get (_read_state w) ("pending_" ++ S) = None ->
  exists w' line,
    main E w (StdinJson (JObj input_data)) = (w', Exit 0) /\
    lines_of w' (session_file E input_data)
    = (lines_of w (session_file E input_data) ++ [line])%list /\
    state_file w' = state_file w.
Proof.
  intros Hwf Hsid Hev Haid Hdir Happ Hagent Hpending.
  destruct (main_exits E w input_data Hwf Hdir Happ) as [w' Hmain].
  destruct (main_exit_inv _ _ _ _ _ Hmain)
    as (w0 & w1 & entry & _ & Hs0 & Hbuild & Hs1 & Hlines).
  apply build_entry_subagent_stop in Hbuild as [entry3 Hresolve];
    [|unfold field_default; now rewrite Hev].
  unfold field_default, field in Hresolve. rewrite Hsid, Haid in Hresolve.
  rewrite resolve_subagent_unresolved in Hresolve;
    [|now rewrite (read_state_eq _ _ Hs0)
     |now rewrite pending_key_str, (read_state_eq _ _ Hs0)].
  injection Hresolve as <- <-.
  exists w', (remove_none entry3). repeat split; try assumption. congruence.
Qed.

Lemma unresolved_stop_is_logged_witness :
  exists w' line,
    main sample_env empty_world (StdinJson (JObj (subagent_stop_event "a1b2c3")))
    = (w', Exit 0) /\
    lines_of w' (session_file sample_env (subagent_stop_event "a1b2c3"))
    = (lines_of empty_world (session_file sample_env (subagent_stop_event "a1b2c3"))
       ++ [line])%list /\
    state_file w' = state_file empty_world.
Proof.
  apply (unresolved_stop_is_logged sample_env empty_world (subagent_stop_event "a1b2c3")
           "s1" "a1b2c3").
  - reflexivity.
  - reflexivity.
  - reflexivity.
  - reflexivity.
  - discriminate.
  - reflexivity.
  - reflexivity.
  - reflexivity.
Defined.

(** X21: when the result of a task comes before its completion: after
    [set_pending_task] for a session and [register_agent] for the agent, in
    a store with room for both, the agent is found by [lookup_agent] with
    the registered metadata, and the pending task of the session is still
    there to be taken. *)
Theorem result_first_keeps_pending E1 E2 E3 w S I ty mo de ty' mo' de' :
  I <> "" ->
  String.prefix "pending_" I = false ->
  state_writable E1 = true -> state_writable E2 = true ->
  record_count w < 99 ->
  exists w2 w3,
    register_agent E2 (set_pending_task E1 w (JStr S) ty mo de) (JStr I) ty' mo' de'
    = Ok w2 /\
    lookup_agent w2 (JStr I) = Ok (Some (new_info E2 ty' mo' de')) /\
    get_and_clear_pending_task E3 w2 (JStr S) = (w3, Some (new_info E1 ty mo de)).
Proof.
  intros HI Hprefix H1 H2 Hroom.
  assert (Hne : I <> "pending_" ++ S).
  { intros ->. now rewrite prefix_append in Hprefix. }
  unfold register_agent, set_pending_task, lookup_agent, get_and_clear_pending_task.
  rewrite (truthy_str I HI). cbn [negb]. rewrite !pending_key_str.
  rewrite !read_write_state by assumption.
  set (st1 := dict_set (_read_state w) ("pending_" ++ S) (new_info E1 ty mo de)).
  assert (Hlen1 : List.length st1 <= 99).
  { unfold st1. rewrite length_dict_set. unfold record_count in Hroom.
    destruct (dict_get _ _); lia. }
  assert (Htrim : trim (dict_set st1 I (new_info E2 ty' mo' de'))
                  = dict_set st1 I (new_info E2 ty' mo' de')).
  { apply trim_small. rewrite length_dict_set. destruct (dict_get st1 I); lia. }
  rewrite Htrim. eexists _, _. split; [reflexivity|].
  rewrite !read_write_state by assumption.
  rewrite dict_get_set_same. split; [reflexivity|].
  rewrite dict_get_set_other by assumption. unfold st1.
  rewrite dict_get_set_same. reflexivity.
Qed.

Lemma result_first_keeps_pending_witness :
  exists w2 w3,
    register_agent later_env
      (set_pending_task sample_env empty_world (JStr "s1") (JStr "Plan") JNull JNull)
      (JStr "a1b2c3") (JStr "Plan") JNull JNull = Ok w2 /\
    lookup_agent w2 (JStr "a1b2c3")
    = Ok (Some (new_info later_env (JStr "Plan") JNull JNull)) /\
    get_and_clear_pending_task later_env w2 (JStr "s1")
    = (w3, Some (new_info sample_env (JStr "Plan") JNull JNull)).
Proof.
  apply (result_first_keeps_pending sample_env later_env later_env empty_world
           "s1" "a1b2c3").
  - discriminate.
  - reflexivity.
  - reflexivity.
  - reflexivity.
  - vm_compute. lia.
Defined.

Lemma register_agent_bounded_witness :
  record_count
    (apply_op later_env
       (apply_ops sample_env empty_world
          (register_many 100 ++ [OpSetPending "s1" (JStr "Explore") JNull JNull])%list)
       (OpRegister "a1b2c3" (JStr "Plan") JNull JNull)) <= 100.
Proof.
  apply (register_agent_bounded later_env
           (apply_ops sample_env empty_world
              (register_many 100 ++ [OpSetPending "s1" (JStr "Explore") JNull JNull])%list)
           "a1b2c3" (JStr "Plan") JNull JNull).
  - discriminate.
  - reflexivity.
  - apply distinct_NoDup. vm_compute. reflexivity.
  - vm_compute. reflexivity.
Defined.

(** * The keys of a record, whatever the event *)

Lemma with_metadata_NoDup entry info :
  NoDup (keys entry) -> NoDup (keys (with_metadata entry info)).
Proof. intros H. unfold with_metadata. now repeat apply NoDup_keys_dict_set. Qed.

Lemma yields_resolve_NoDup E session_id agent_id entry :
  NoDup (keys entry) ->
  yields (resolve_subagent E session_id agent_id entry) (fun e => NoDup (keys e)).
Proof.
  intros Hnd. unfold resolve_subagent.
  eapply yields_bind; [apply yields_any|]. intros [info|] _.
  - apply yields_ret. now apply with_metadata_NoDup.
  - eapply yields_bind; [apply yields_any|]. intros [p|] _.
    + eapply yields_bind; [apply yields_any|]. intros _ _.
      apply yields_ret. now apply with_metadata_NoDup.
    + now apply yields_ret.
Qed.

(** No key occurs twice in the entry [main] builds. *)
Lemma yields_build_entry_NoDup E input_data :
  yields (build_entry E input_data) (fun e => NoDup (keys e)).
Proof.
  unfold build_entry. cbv zeta.
  apply yields_bind with (P := fun e => NoDup (keys e)).
  { apply yields_lift. intros entry1 Hflat.
    apply (flatten_tool_NoDup _ _ _ _ Hflat). apply distinct_NoDup. reflexivity. }
  intros entry1 Hnd1. eapply yields_bind; [apply yields_any|]. intros _ _.
  apply yields_bind with (P := fun e => NoDup (keys e)).
  { destruct (is_str _ "PostToolUse"); [|now apply yields_ret].
    destruct (_ && _).
    - eapply yields_bind; [apply yields_any|]. intros agent_id _.
      eapply yields_bind; [apply yields_any|]. intros response _.
      eapply yields_bind; [apply yields_any|]. intros _ _.
      apply yields_ret. now repeat apply NoDup_keys_dict_set.
    - apply yields_ret. now apply NoDup_keys_dict_set. }
  intros entry2 Hnd2. apply yields_bind with (P := fun e => NoDup (keys e)).
  { destruct (is_str _ "Stop"); [|now apply yields_ret].
    eapply yields_bind; [apply yields_any|]. intros response _.
    apply yields_ret. now repeat apply NoDup_keys_dict_set. }
  intros entry3 Hnd3. apply yields_bind with (P := fun e => NoDup (keys e)).
  { destruct (is_str _ "SubagentStop"); [|now apply yields_ret].
    eapply yields_bind; [apply yields_any|]. intros response _.
    apply yields_resolve_NoDup. now repeat apply NoDup_keys_dict_set. }
  intros entry4 Hnd4. apply yields_ret.
  repeat match goal with
         | |- NoDup (keys (if ?b then _ else _)) => destruct b
         | |- NoDup (keys (dict_set _ _ _)) => apply NoDup_keys_dict_set
         end; assumption.
Qed.

(** C9 (counterexample): an event whose [session_id] is [null] is logged,
    to the file named after [None], in a record without the key
    [session_id]. *)
Lemma null_session_id_is_dropped :
  snd (main sample_env fresh_world (StdinJson (JObj null_session_event))) = Exit 0 /\
  lines_of (fst (main sample_env fresh_world (StdinJson (JObj null_session_event))))
    "hooks-None.jsonl"
  = [[("ts", JStr "2026-01-01T00:00:00Z"); ("event", JStr "SessionStart");
      ("tool_input", JObj [])]] /\
  dict_get [("ts", JStr "2026-01-01T00:00:00Z"); ("event", JStr "SessionStart");
            ("tool_input", JObj [])] "session_id" = None.
Proof. repeat split. Qed.

(** C9 (amended): for every input event that is a JSON object and that
    [main] logs, the persisted record has the key [ts]; it has the key
    [session_id] (or [event]) whenever the input's [session_id] (or
    [hook_event_name]) is absent or is not [null], and then holds the
    input's value, or the string [unknown] when the field is absent; when
    the input gives [null] for the field, the record does not have the
    key. *)
Theorem core_fields_of_record E w input_data w' code :
  main E w (StdinJson (JObj input_data)) = (w', Exit code) ->
  exists line,
    lines_of w' (session_file E input_data)
    = (lines_of w (session_file E input_data) ++ [line])%list /\
    dict_get line "ts" = Some (JStr (now_ts E)) /\
    (forall v, dict_get input_data "session_id" = Some v -> v <> JNull ->
               dict_get line "session_id" = Some v) /\
    (forall v, dict_get input_data "hook_event_name" = Some v -> v <> JNull ->
               dict_get line "event" = Some v) /\
    (dict_get input_data "session_id" = None ->
     dict_get line "session_id" = Some (JStr "unknown")) /\
    (dict_get input_data "hook_event_name" = None ->
     dict_get line "event" = Some (JStr "unknown")) /\
    (dict_get input_data "session_id" = Some JNull ->
     dict_get line "session_id" = None) /\
    (dict_get input_data "hook_event_name" = Some JNull ->
     dict_get line "event" = None).
Proof.
  intros Hmain.
  destruct (main_exit_inv _ _ _ _ _ Hmain) as (w0 & w1 & entry & _ & _ & Hbuild & _ & Hlines).
  destruct (yields_build_entry_core E input_data _ _ _ Hbuild) as (Hts & Hsid & Hev).
  pose proof (yields_build_entry_NoDup E input_data _ _ _ Hbuild) as Hnd.
  unfold field_default in Hsid, Hev.
  exists (remove_none entry). split; [assumption|].
  split; [apply dict_get_remove_none; [assumption | discriminate]|].
  repeat split.
  - intros v Hv Hnn. rewrite Hv in Hsid. now apply dict_get_remove_none.
  - intros v Hv Hnn. rewrite Hv in Hev. now apply dict_get_remove_none.
  - intros Hnone. rewrite Hnone in Hsid.
    apply dict_get_remove_none; [assumption | discriminate].
  - intros Hnone. rewrite Hnone in Hev.
    apply dict_get_remove_none; [assumption | discriminate].
  - intros Hnull. rewrite Hnull in Hsid. now apply remove_none_drops_null.
  - intros Hnull. rewrite Hnull in Hev. now apply remove_none_drops_null.
Qed.

Lemma core_fields_of_record_witness :
  exists line,
    lines_of (fst (main sample_env fresh_world (StdinJson (JObj null_session_event))))
      (session_file sample_env null_session_event)
    = (lines_of fresh_world (session_file sample_env null_session_event) ++ [line])%list /\
    dict_get line "ts" = Some (JStr (now_ts sample_env)) /\
    (forall v, dict_get null_session_event "session_id" = Some v -> v <> JNull ->
               dict_get line "session_id" = Some v) /\
    (forall v, dict_get null_session_event "hook_event_name" = Some v -> v <> JNull ->
               dict_get line "event" = Some v) /\
    (dict_get null_session_event "session_id" = None ->
     dict_get line "session_id" = Some (JStr "unknown")) /\
    (dict_get null_session_event "hook_event_name" = None ->
     dict_get line "event" = Some (JStr "unknown")) /\
    (dict_get null_session_event "session_id" = Some JNull ->
     dict_get line "session_id" = None) /\
    (dict_get null_session_event "hook_event_name" = Some JNull ->
     dict_get line "event" = None).
Proof.
  apply (core_fields_of_record sample_env fresh_world null_session_event _ 0%Z).
  reflexivity.
Defined.
